(** * SimAlly game backend: the session relay of [backend/app.py]

    The relay keeps one process-wide dictionary, [active_conversations],
    and forwards create / end requests to the Tavus conversation API.
    The handlers are [async def] bodies without a single [await], so each
    of them runs to completion on the event loop: a handler is a function
    from the state before the request to a result and the state after it.

    Everything outside the repository (the provider, [uuid.uuid4],
    [datetime.now], standard output, Python's [repr], pydantic's error
    rendering and the process environment) is gathered in the record
    [Env]. *)

From stdpp Require Import base strings gmap fin_maps list pretty.
From Stdlib Require Import ZArith Ascii.

Local Open Scope string_scope.

(** ** Python values *)

(** A value taken out of a decoded JSON object.  Only [None] and [str] are
    told apart by the relay; any other value (number, bool, list, object)
    is kept by what [str()] prints for it. *)
Inductive PyVal : Type :=
| PyNone
| PyStr (s : string)
| PyOther (printed : string).

(** A value interpolated in an f-string, that is [str(v)] *)
Definition format (v : PyVal) : string :=
  match v with
  | PyNone => "None"
  | PyStr s => s
  | PyOther printed => printed
  end.

(** The [detail] dictionaries handed to [HTTPException]: the keys
    [success] and [error], and [details] on one path only. *)
Record Detail : Type := mkDetail {
  success : bool;
  error : string;
  details : option string
}.

(** The exception classes the handlers tell apart in their [except]
    clauses.  [RequestException] and [Exception] carry [str(e)]. *)
Inductive exn : Type :=
| RequestException (msg : string)
| HTTPException (status_code : Z) (detail : Detail)
| Exception (msg : string).

(** What [print] can raise when it writes to standard output: the stream
    cannot encode the text, the write fails in the operating system, or the
    stream is closed. *)
Inductive PrintError : Type :=
| UnicodeEncodeError (encoding : string) (reason : string)
| OSError (errno : Z) (strerror : string)
| ClosedFile.

(** [str(e)] of these *)
Definition str_print_error (e : PrintError) : string :=
  match e with
  | UnicodeEncodeError encoding reason =>
      "'" ++ encoding ++ "' codec can't encode " ++ reason
  | OSError errno strerror => "[Errno " ++ pretty errno ++ "] " ++ strerror
  | ClosedFile => "I/O operation on closed file."
  end.

(** ** Outbound HTTP *)

Inductive Method : Type := POST | DELETE.

Record Properties : Type := mkProperties {
  max_call_duration : Z;
  participant_left_timeout : Z;
  participant_absent_timeout : Z;
  enable_recording : bool;
  enable_closed_captions : bool;
  apply_greenscreen : bool;
  language : string;
  recording_s3_bucket_name : string;
  recording_s3_bucket_region : string;
  aws_assume_role_arn : string
}.

Record Payload : Type := mkPayload {
  replica_id : option string;
  persona_id : option string;
  callback_url : string;
  conversation_name : string;
  conversational_context : string;
  custom_greeting : string;
  properties : Properties
}.

Record Headers : Type := mkHeaders {
  x_api_key : option string;
  content_type : string
}.

Record HttpRequest : Type := mkHttpRequest {
  method : Method;
  url : string;
  json_payload : option Payload;
  headers : Headers
}.

(** What [response.json()] gives: it raises, or it returns a [dict], or it
    returns a value of another type (named by its Python type). *)
Inductive JsonBody : Type :=
| JsonRaises (e : exn)
| JsonObject (fields : gmap string PyVal)
| JsonOther (type_name : string).

Record Response : Type := mkResponse {
  status_code : Z;
  text : string;
  json : JsonBody
}.

(** Outcome of one [requests.post] / [requests.delete]. *)
Inductive Outcome : Type :=
| Responds (r : Response)
| Raises (e : exn).

(** ** The environment *)

Record Env : Type := mkEnv {
  (** [os.getenv] of the three configuration names, read at import *)
  TAVUS_API_KEY : option string;
  PERSONA_ID : option string;
  REPLICA_ID : option string;
  (** the 128-bit integer of the n-th [uuid.uuid4()] *)
  uuid4 : nat -> N;
  (** [datetime.now().isoformat()] of the n-th reading of the clock *)
  now_isoformat : nat -> string;
  (** the provider: what it does with a request, given the requests it
      was sent before (oldest first) *)
  provider : list HttpRequest -> HttpRequest -> Outcome;
  (** standard output: whether writing a line raises, given the lines
      written before (oldest first) *)
  stdout : list string -> string -> option PrintError;
  (** Python's [repr] on [str] *)
  repr : string -> string;
  (** [str()] of the pydantic [ValidationError] of a response model, given
      the fields that were refused and the values offered for them *)
  validation_error : string -> list (string * PyVal) -> string
}.

(** ** Request and response models *)

Module CreateConversationRequest.
Record t : Type := mk { user_id : option string }.
End CreateConversationRequest.

Module EndConversationRequest.
Record t : Type := mk { user_id : string }.
End EndConversationRequest.

Module ConversationResponse.
Record t : Type := mk {
  success : bool;
  conversation_id : option string;
  conversation_url : option string;
  user_id : option string;
  error : option string;
  details : option string
}.
End ConversationResponse.

Module EndConversationResponse.
Record t : Type := mk {
  success : bool;
  message : option string;
  error : option string
}.
End EndConversationResponse.

Module Health.
Record t : Type := mk {
  status : string;
  active_conversations : nat;
  framework : string
}.
End Health.

Module Root.
Record t : Type := mk {
  message : string;
  framework : string
}.
End Root.

(** ** State *)

(** A value of [active_conversations]: the dictionary with the keys
    [conversation_id] and [created_at]. *)
Record Conversation : Type := mkConversation {
  conversation_id : PyVal;
  created_at : string
}.

Record World : Type := mkWorld {
  active_conversations : gmap string Conversation;
  (** requests handed to [requests], oldest first *)
  outbound : list HttpRequest;
  uuid_draws : nat;
  clock_reads : nat;
  (** lines written to standard output, oldest first *)
  printed : list string
}.

Definition initial : World :=
  {| active_conversations := ∅; outbound := []; uuid_draws := 0; clock_reads := 0;
     printed := [] |}.

(** ** Handlers as state transformers that may raise *)

Definition M (A : Type) : Type := World -> (exn + A) * World.

#[export] Instance M_ret : MRet M := fun A a w => (inr a, w).

#[export] Instance M_bind : MBind M := fun A B k m w =>
  match m w with
  | (inl e, w') => (inl e, w')
  | (inr a, w') => k a w'
  end.

Definition raise {A : Type} (e : exn) : M A := fun w => (inl e, w).

(** [try: body  except ...: handler]; a handler that does not match an
    exception raises it again. *)
Definition try_except {A : Type} (body : M A) (handler : exn -> M A) : M A := fun w =>
  match body w with
  | (inl e, w') => handler e w'
  | (inr a, w') => (inr a, w')
  end.

Definition set_active_conversations (f : gmap string Conversation -> gmap string Conversation) (w : World) : World :=
  {| active_conversations := f (active_conversations w);
     outbound := outbound w;
     uuid_draws := uuid_draws w;
     clock_reads := clock_reads w;
     printed := printed w |}.

(** [active_conversations[user_id]]: a missing key raises [KeyError],
    whose [str] is the [repr] of the key. *)
Definition getitem (repr_key : string -> string) (user_id : string) : M Conversation := fun w =>
  match active_conversations w !! user_id with
  | Some c => (inr c, w)
  | None => (inl (Exception (repr_key user_id)), w)
  end.

(** [active_conversations[user_id] = c] *)
Definition setitem (user_id : string) (c : Conversation) : M unit := fun w =>
  (inr tt, set_active_conversations (insert user_id c) w).

(** [del active_conversations[user_id]] *)
Definition delitem (repr_key : string -> string) (user_id : string) : M unit := fun w =>
  match active_conversations w !! user_id with
  | Some _ => (inr tt, set_active_conversations (delete user_id) w)
  | None => (inl (Exception (repr_key user_id)), w)
  end.

(** [user_id in active_conversations] *)
Definition contains (user_id : string) : M bool := fun w =>
  (inr (bool_decide (is_Some (active_conversations w !! user_id))), w).

(** [len(active_conversations)] *)
Definition len : M nat := fun w => (inr (size (active_conversations w)), w).

(** [conversation_data.get(key)] on what [response.json()] returned *)
Definition get (conversation_data : gmap string PyVal) (key : string) : PyVal :=
  default PyNone (conversation_data !! key).

(** A field annotated [Optional[str]]: [None] and [str] pass, anything
    else is refused (pydantic 2 does not coerce to [str]). *)
Definition optional_str (v : PyVal) : option (option string) :=
  match v with
  | PyNone => Some None
  | PyStr s => Some (Some s)
  | PyOther _ => None
  end.

Definition refused (fields : list (string * PyVal)) : list (string * PyVal) :=
  filter (fun fv => optional_str fv.2 = None) fields.

(** ['%x' % d] for one digit *)
Definition hex_digit (d : N) : ascii :=
  default "0"%char (String.get (N.to_nat d) "0123456789abcdef").

(** ['%0{width}x' % n], for [n] below [16 ^ width] *)
Fixpoint hex (width : nat) (n : N) : string :=
  match width with
  | O => ""
  | S k => hex k (n / 16)%N ++ String (hex_digit (n mod 16)%N) ""
  end.

(** [str] of a [UUID]: the 32 hexadecimal digits of its integer, hyphenated
    as 8-4-4-4-12. *)
Definition str_uuid (int : N) : string :=
  let h := hex 32 int in
  String.substring 0 8 h ++ "-" ++ String.substring 8 4 h ++ "-" ++ String.substring 12 4 h ++ "-" ++
  String.substring 16 4 h ++ "-" ++ String.substring 20 12 h.

Section Relay.
Context (env : Env).

Definition str_bool (b : bool) : string := if b then "True" else "False".

(** [str()] of a [detail] dictionary *)
Definition str_detail (d : Detail) : string :=
  "{'success': " ++ str_bool (success d) ++
  ", 'error': " ++ repr env (error d) ++
  match details d with
  | Some t => ", 'details': " ++ repr env t
  | None => ""
  end ++ "}".

(** [str(e)]; Starlette prints an [HTTPException] as its status code, a
    colon and a space, and its detail. *)
Definition str (e : exn) : string :=
  match e with
  | RequestException msg => msg
  | HTTPException sc d => pretty sc ++ ": " ++ str_detail d
  | Exception msg => msg
  end.

(** One call into [requests]: the request goes out, and the provider
    answers or the call raises. *)
Definition send (r : HttpRequest) : M Response := fun w =>
  let w' := {| active_conversations := active_conversations w;
               outbound := outbound w ++ [r];
               uuid_draws := uuid_draws w;
               clock_reads := clock_reads w;
               printed := printed w |} in
  match provider env (outbound w) r with
  | Responds resp => (inr resp, w')
  | Raises e => (inl e, w')
  end.

Definition requests_post (url : string) (json : option Payload) (headers : Headers) : M Response :=
  send {| method := POST; url := url; json_payload := json; headers := headers |}.

Definition requests_delete (url : string) (headers : Headers) : M Response :=
  send {| method := DELETE; url := url; json_payload := None; headers := headers |}.

(** [str(uuid.uuid4())] *)
Definition uuid_uuid4 : M string := fun w =>
  (inr (str_uuid (uuid4 env (uuid_draws w))),
   {| active_conversations := active_conversations w;
      outbound := outbound w;
      uuid_draws := S (uuid_draws w);
      clock_reads := clock_reads w;
      printed := printed w |}).

(** [datetime.now().isoformat()] *)
Definition datetime_now_isoformat : M string := fun w =>
  (inr (now_isoformat env (clock_reads w)),
   {| active_conversations := active_conversations w;
      outbound := outbound w;
      uuid_draws := uuid_draws w;
      clock_reads := S (clock_reads w);
      printed := printed w |}).

(** [str(x)] of a value that is [None] or a [str] *)
Definition str_optional (x : option string) : string :=
  match x with
  | Some s => s
  | None => "None"
  end.

(** [print] of some arguments: the arguments, already turned to text with
    [str], go out as one line, separated by spaces; the write may raise. *)
Definition print (args : list string) : M unit := fun w =>
  let line := String.concat " " args in
  match stdout env (printed w) line with
  | None =>
      (inr tt,
       {| active_conversations := active_conversations w;
          outbound := outbound w;
          uuid_draws := uuid_draws w;
          clock_reads := clock_reads w;
          printed := printed w ++ [line] |})
  | Some e => (inl (Exception (str_print_error e)), w)
  end.

(** [response.json()] followed by the first [.get]: a value that is not
    a [dict] has no attribute [get]. *)
Definition response_json (response : Response) : M (gmap string PyVal) :=
  match json response with
  | JsonRaises e => raise e
  | JsonObject fields => mret fields
  | JsonOther type_name =>
      raise (Exception ("'" ++ type_name ++ "' object has no attribute 'get'"))
  end.

(** [ConversationResponse(success=True, conversation_id=..,
    conversation_url=.., user_id=..)] *)
Definition ConversationResponse_success
    (conversation_id conversation_url : PyVal) (user_id : string) : M ConversationResponse.t :=
  match optional_str conversation_id, optional_str conversation_url with
  | Some cid, Some curl =>
      mret {| ConversationResponse.success := true;
              ConversationResponse.conversation_id := cid;
              ConversationResponse.conversation_url := curl;
              ConversationResponse.user_id := Some user_id;
              ConversationResponse.error := None;
              ConversationResponse.details := None |}
  | _, _ =>
      raise (Exception (validation_error env "ConversationResponse"
               (refused [("conversation_id", conversation_id);
                         ("conversation_url", conversation_url)])))
  end.

Definition headers_of_env : Headers :=
  {| x_api_key := TAVUS_API_KEY env; content_type := "application/json" |}.

Definition payload_of_env : Payload :=
  {| replica_id := REPLICA_ID env;
     persona_id := PERSONA_ID env;
     callback_url := "https://yourwebsite.com/webhook";
     conversation_name := "Game Buddy";
     conversational_context := "You are a playful and clever riddle master. Your job is to challenge the user with creative and tricky riddles. Encourage the user to guess, ask for hints, or skip if they're stuck. React in a fun and engaging way to each guess, making the experience lighthearted and enjoyable.";
     custom_greeting := "Welcome, challenger! Ready to test your wits with some riddles? Let's see if you can outsmart me!";
     properties :=
       {| max_call_duration := 3600;
          participant_left_timeout := 60;
          participant_absent_timeout := 300;
          enable_recording := true;
          enable_closed_captions := true;
          apply_greenscreen := true;
          language := "english";
          recording_s3_bucket_name := "conversation-recordings";
          recording_s3_bucket_region := "us-east-1";
          aws_assume_role_arn := "" |} |}.

(** [request.user_id or str(uuid.uuid4())]: [None] and the empty string
    are falsy, and only then is an identifier drawn. *)
Definition resolve_user_id (request : CreateConversationRequest.t) : M string :=
  match CreateConversationRequest.user_id request with
  | Some s => if bool_decide (s = "") then uuid_uuid4 else mret s
  | None => uuid_uuid4
  end.

(** POST /api/create-riddle-conversation *)
Definition create_riddle_conversation (request : CreateConversationRequest.t)
    : M ConversationResponse.t :=
  try_except
    (user_id ← resolve_user_id request;
     let url := "https://tavusapi.com/v2/conversations" in
     let payload := payload_of_env in
     let headers := headers_of_env in
     response ← requests_post url (Some payload) headers;
     _ ← print ["Tavus API response:"; pretty (status_code response); text response];
     _ ← print [str_optional (TAVUS_API_KEY env)];
     if (status_code response =? 200)%Z then
       conversation_data ← response_json response;
       let conversation_id := get conversation_data "conversation_id" in
       let conversation_url := get conversation_data "conversation_url" in
       now ← datetime_now_isoformat;
       _ ← setitem user_id {| conversation_id := conversation_id; created_at := now |};
       ConversationResponse_success conversation_id conversation_url user_id
     else
       raise (HTTPException 500
                {| success := false;
                   error := "Failed to create conversation";
                   details := Some (text response) |}))
    (fun e =>
       match e with
       | RequestException _ =>
           raise (HTTPException 500
                    {| success := false;
                       error := "Request failed: " ++ str e;
                       details := None |})
       | _ =>
           raise (HTTPException 500
                    {| success := false; error := str e; details := None |})
       end).

(** POST /api/end-conversation *)
Definition end_conversation (request : EndConversationRequest.t)
    : M EndConversationResponse.t :=
  try_except
    (let user_id := EndConversationRequest.user_id request in
     known ← contains user_id;
     _ ← (if bool_decide (user_id = "") || negb known then
            raise (HTTPException 404
                     {| success := false;
                        error := "No active conversation found for user";
                        details := None |})
          else mret tt);
     conversation ← getitem (repr env) user_id;
     let conversation_id := conversation_id conversation in
     let headers := headers_of_env in
     let end_url := "https://tavusapi.com/v2/conversations/" ++ format conversation_id ++ "/end" in
     end_response ← requests_post end_url None headers;
     let delete_url := "https://tavusapi.com/v2/conversations/" ++ format conversation_id in
     delete_response ← requests_delete delete_url headers;
     _ ← delitem (repr env) user_id;
     mret {| EndConversationResponse.success := true;
             EndConversationResponse.message := Some "Conversation ended and deleted successfully";
             EndConversationResponse.error := None |})
    (fun e =>
       match e with
       | HTTPException _ _ => raise e
       | _ =>
           raise (HTTPException 500
                    {| success := false; error := str e; details := None |})
       end).

(** GET /api/health *)
Definition health_check : M Health.t :=
  n ← len;
  mret {| Health.status := "healthy";
          Health.active_conversations := n;
          Health.framework := "FastAPI" |}.

(** GET / *)
Definition root : M Root.t :=
  mret {| Root.message := "SimAlly Game Backend API"; Root.framework := "FastAPI" |}.

End Relay.

(** ** Runs of the service *)

Inductive Call : Type :=
| CreateRiddleConversation (request : CreateConversationRequest.t)
| EndConversation (request : EndConversationRequest.t)
| HealthCheck
| GetRoot.

(** The state a request leaves behind, whatever it answered. *)
Definition step (env : Env) (c : Call) (w : World) : World :=
  match c with
  | CreateRiddleConversation request => (create_riddle_conversation env request w).2
  | EndConversation request => (end_conversation env request w).2
  | HealthCheck => (health_check w).2
  | GetRoot => (root w).2
  end.

Inductive steps (env : Env) (w : World) : World -> Prop :=
| steps_refl : steps env w w
| steps_step w' c : steps env w w' -> steps env w (step env c w').

Definition reachable (env : Env) (w : World) : Prop := steps env initial w.

(** ** The calls the relay sends *)

Definition create_request (env : Env) : HttpRequest :=
  {| method := POST;
     url := "https://tavusapi.com/v2/conversations";
     json_payload := Some (payload_of_env env);
     headers := headers_of_env env |}.

Definition end_request (env : Env) (c : Conversation) : HttpRequest :=
  {| method := POST;
     url := "https://tavusapi.com/v2/conversations/" ++ format (conversation_id c) ++ "/end";
     json_payload := None;
     headers := headers_of_env env |}.

Definition delete_request (env : Env) (c : Conversation) : HttpRequest :=
  {| method := DELETE;
     url := "https://tavusapi.com/v2/conversations/" ++ format (conversation_id c);
     json_payload := None;
     headers := headers_of_env env |}.

(** The identifier a create request runs under in state [w]. *)
Definition resolved_user_id (env : Env) (request : CreateConversationRequest.t) (w : World) : string :=
  match CreateConversationRequest.user_id request with
  | Some s => if bool_decide (s = "") then str_uuid (uuid4 env (uuid_draws w)) else s
  | None => str_uuid (uuid4 env (uuid_draws w))
  end.

(** ** Provider stubs *)

(** A 200 answer whose body decodes to an object with the two
    identifiers; the relay does not read [text] on that path. *)
Definition created (conversation_id conversation_url : string) : Response :=
  {| status_code := 200;
     text := "created";
     json := JsonObject {[ "conversation_id" := PyStr conversation_id;
                           "conversation_url" := PyStr conversation_url ]} |}.

(** An answer whose body is plain text, on which [response.json()] raises
    the [JSONDecodeError] of [requests], a [RequestException]. *)
Definition plain (status : Z) (body : string) : Response :=
  {| status_code := status;
     text := body;
     json := JsonRaises (RequestException "Expecting value: line 1 column 1 (char 0)") |}.

(** A provider that answers by the kind of call alone. *)
Definition stub_provider (on_create on_end on_delete : Outcome)
    (_ : list HttpRequest) (r : HttpRequest) : Outcome :=
  match method r, json_payload r with
  | POST, Some _ => on_create
  | POST, None => on_end
  | DELETE, _ => on_delete
  end.

(** An environment around such a provider, with the generator and the
    standard output given.  Its [repr] puts the text between single quotes,
    which is what Python prints for text without quotes, backslashes or
    control characters. *)
Definition stub_env_with (draws : nat -> N)
    (out : list string -> string -> option PrintError)
    (on_create on_end on_delete : Outcome) : Env :=
  {| TAVUS_API_KEY := Some "key";
     PERSONA_ID := Some "persona";
     REPLICA_ID := Some "replica";
     uuid4 := draws;
     now_isoformat := fun n => "2025-06-01T12:00:0" ++ pretty n;
     provider := stub_provider on_create on_end on_delete;
     stdout := out;
     repr := fun s => "'" ++ s ++ "'";
     validation_error := fun model _ => "1 validation error for " ++ model |}.

(** The same with a generator that counts and a standard output that takes
    every line. *)
Definition stub_env (on_create on_end on_delete : Outcome) : Env :=
  stub_env_with N.of_nat (fun _ _ => None) on_create on_end on_delete.

(** A standard output that encodes ASCII only; the message it raises with
    is the one Python gives for the line of [ascii_only_env] below. *)
Definition is_ascii (s : string) : bool :=
  forallb (fun c => Nat.ltb (nat_of_ascii c) 128) (String.list_ascii_of_string s).

Definition ascii_stdout (_ : list string) (line : string) : option PrintError :=
  if is_ascii line then None
  else Some (UnicodeEncodeError "ascii"
               "character '\xe9' in position 24: ordinal not in range(128)").

(** The provider creates conversation [c1]; the text of its answer has a
    character outside ASCII, and standard output encodes ASCII only. *)
Definition ascii_only_env : Env :=
  stub_env_with N.of_nat ascii_stdout
    (Responds {| status_code := 200;
                 text := String "233"%char "";
                 json := JsonObject {[ "conversation_id" := PyStr "c1";
                                       "conversation_url" := PyStr "u1" ]} |})
    (Responds (plain 200 "")) (Responds (plain 200 "")).


(** ** The lines a create request prints *)

Definition response_line (r : Response) : string :=
  String.concat " " ["Tavus API response:"; pretty (status_code r); text r].

Definition key_line (env : Env) : string :=
  String.concat " " [str_optional (TAVUS_API_KEY env)].

(** Standard output takes both lines of a create request that the provider
    answered with [r]. *)
Definition prints_pass (env : Env) (w : World) (r : Response) : Prop :=
  stdout env (printed w) (response_line r) = None /\
  stdout env (printed w ++ [response_line r]) (key_line env) = None.

Definition alice_create : CreateConversationRequest.t :=
  {| CreateConversationRequest.user_id := Some "alice" |}.

Definition anonymous_create : CreateConversationRequest.t :=
  {| CreateConversationRequest.user_id := None |}.

Definition alice_end : EndConversationRequest.t :=
  {| EndConversationRequest.user_id := "alice" |}.

(** The provider creates conversation [c1] and answers every later call
    with 200. *)
Definition healthy_env : Env :=
  stub_env (Responds (created "c1" "u1")) (Responds (plain 200 "")) (Responds (plain 200 "")).

(** The provider answers the end call with 500 and the delete call with
    404. *)
Definition refusing_env : Env :=
  stub_env (Responds (created "c1" "u1"))
    (Responds (plain 500 "Internal Server Error")) (Responds (plain 404 "Not Found")).

(** The connection is refused when the end call is made. *)
Definition end_down_env : Env :=
  stub_env (Responds (created "c1" "u1"))
    (Raises (RequestException "connection refused")) (Responds (plain 200 "")).

(** The connection is reset when the delete call is made. *)
Definition delete_down_env : Env :=
  stub_env (Responds (created "c1" "u1"))
    (Responds (plain 200 "")) (Raises (RequestException "connection reset")).

(** The provider answers 503 to the create call. *)
Definition unavailable_env : Env :=
  stub_env (Responds (plain 503 "unavailable")) (Responds (plain 200 "")) (Responds (plain 200 "")).

(** The provider answers 200 to the create call with a body that is not
    JSON. *)
Definition html_env : Env :=
  stub_env (Responds (plain 200 "<html>ok</html>")) (Responds (plain 200 "")) (Responds (plain 200 "")).

(** The provider cannot be reached at all. *)
Definition down_env : Env :=
  stub_env (Raises (RequestException "connection refused"))
    (Raises (RequestException "connection refused"))
    (Raises (RequestException "connection refused")).

(** The state after alice's create request on a fresh process. *)
Definition with_alice (env : Env) : World :=
  step env (CreateRiddleConversation alice_create) initial.

Definition c1_record : Conversation :=
  {| conversation_id := PyStr "c1"; created_at := "2025-06-01T12:00:00" |}.

(** Whether a create request makes the relay draw an identifier. *)
Definition generates (request : CreateConversationRequest.t) : bool :=
  match CreateConversationRequest.user_id request with
  | Some s => bool_decide (s = "")
  | None => true
  end.

Definition draws_after (request : CreateConversationRequest.t) (w : World) : nat :=
  if generates request then S (uuid_draws w) else uuid_draws w.

Definition not_found : exn :=
  HTTPException 404
    {| success := false; error := "No active conversation found for user"; details := None |}.

Definition ended : EndConversationResponse.t :=
  {| EndConversationResponse.success := true;
     EndConversationResponse.message := Some "Conversation ended and deleted successfully";
     EndConversationResponse.error := None |}.

(** The state a create request leaves when the provider call raises: the
    call went out, and nothing else changed but the count of drawn
    identifiers. *)
Definition after_failed_create (env : Env) (request : CreateConversationRequest.t) (w : World) : World :=
  {| active_conversations := active_conversations w;
     outbound := outbound w ++ [create_request env];
     uuid_draws := draws_after request w;
     clock_reads := clock_reads w;
     printed := printed w |}.

(** The state it leaves when the provider answered with [r], both lines
    were printed and the request failed after that, before the record was
    written. *)
Definition after_answered_create (env : Env) (request : CreateConversationRequest.t)
    (w : World) (r : Response) : World :=
  {| active_conversations := active_conversations w;
     outbound := outbound w ++ [create_request env];
     uuid_draws := draws_after request w;
     clock_reads := clock_reads w;
     printed := printed w ++ [response_line r; key_line env] |}.

(** A 200 answer whose body decodes to the object [fields]. *)
Definition answered (fields : gmap string PyVal) : Response :=
  {| status_code := 200; text := "answered"; json := JsonObject fields |}.

(** A 200 answer whose body decodes to a list. *)
Definition listed : Response :=
  {| status_code := 200; text := "[]"; json := JsonOther "list" |}.

(** The provider answers the create call with a number as conversation
    id. *)
Definition numeric_env : Env :=
  stub_env (Responds (answered {[ "conversation_id" := PyOther "42";
                                  "conversation_url" := PyStr "u1" ]}))
    (Responds (plain 200 "")) (Responds (plain 200 "")).

(** The provider answers the create call without a conversation id. *)
Definition nameless_env : Env :=
  stub_env (Responds (answered {[ "conversation_url" := PyStr "u1" ]}))
    (Responds (plain 200 "")) (Responds (plain 200 "")).

(** The provider answers the create call with a JSON list. *)
Definition listing_env : Env :=
  stub_env (Responds listed) (Responds (plain 200 "")) (Responds (plain 200 "")).

Definition empty_create : CreateConversationRequest.t :=
  {| CreateConversationRequest.user_id := Some "" |}.

Definition empty_end : EndConversationRequest.t :=
  {| EndConversationRequest.user_id := "" |}.

Definition end_for (user_id : string) : EndConversationRequest.t :=
  {| EndConversationRequest.user_id := user_id |}.

(** The record a create request writes for the decoded object [fields] in
    state [w]. *)
Definition record_of (env : Env) (fields : gmap string PyVal) (w : World) : Conversation :=
  {| conversation_id := get fields "conversation_id";
     created_at := now_isoformat env (clock_reads w) |}.

(** How many of the calls in a log carry a JSON payload; the relay gives
    one to the create call only. *)
Definition creations (log : list HttpRequest) : nat :=
  length (filter (fun r => is_Some (json_payload r)) log).

(** ** Evaluation lemmas *)

Ltac run :=
  unfold try_except, mbind, M_bind, mret, M_ret, raise, setitem, delitem, getitem,
    contains, len, requests_post, requests_delete, send, datetime_now_isoformat,
    uuid_uuid4, response_json, ConversationResponse_success,
    set_active_conversations in *.

Lemma pretty_500 : pretty 500%Z = "500".
Proof. reflexivity. Qed.

Lemma str_uuid_nonempty int : str_uuid int ≠ "".
Proof.
  unfold str_uuid. generalize (hex 32 int). intros h.
  destruct (String.substring 0 8 h); discriminate.
Qed.

Lemma resolved_user_id_nonempty env request w : resolved_user_id env request w ≠ "".
Proof.
  unfold resolved_user_id.
  destruct request as [[s|]]; simpl; [case_bool_decide|];
    auto using str_uuid_nonempty.
Qed.

Lemma resolve_user_id_eq env request w :
  resolve_user_id env request w =
    (inr (resolved_user_id env request w),
     {| active_conversations := active_conversations w;
        outbound := outbound w;
        uuid_draws := draws_after request w;
        clock_reads := clock_reads w;
        printed := printed w |}).
Proof.
  unfold resolve_user_id, resolved_user_id, draws_after, generates.
  destruct request as [[s|]]; simpl; [case_bool_decide|]; destruct w; reflexivity.
Qed.

(** Rewriting with what standard output did to the two lines. *)
Ltac printing H :=
  let H1 := fresh "Hline" in
  let H2 := fresh "Hkey" in
  destruct H as [H1 H2];
  unfold response_line, key_line in H1, H2; simpl in H1, H2;
  unfold print; simpl; rewrite H1; simpl; rewrite H2; simpl.

Lemma create_on_object env request w r fields cid curl :
  provider env (outbound w) (create_request env) = Responds r ->
  prints_pass env w r ->
  status_code r = 200%Z ->
  json r = JsonObject fields ->
  optional_str (get fields "conversation_id") = Some cid ->
  optional_str (get fields "conversation_url") = Some curl ->
  create_riddle_conversation env request w =
    (inr {| ConversationResponse.success := true;
            ConversationResponse.conversation_id := cid;
            ConversationResponse.conversation_url := curl;
            ConversationResponse.user_id := Some (resolved_user_id env request w);
            ConversationResponse.error := None;
            ConversationResponse.details := None |},
     {| active_conversations :=
          <[resolved_user_id env request w :=
              {| conversation_id := get fields "conversation_id";
                 created_at := now_isoformat env (clock_reads w) |}]> (active_conversations w);
        outbound := outbound w ++ [create_request env];
        uuid_draws := draws_after request w;
        clock_reads := S (clock_reads w);
        printed := printed w ++ [response_line r; key_line env] |}).
Proof.
  intros Hp Hprint Hs Hj Hid Hurl.
  unfold create_riddle_conversation. run.
  rewrite resolve_user_id_eq. simpl.
  fold (create_request env). rewrite Hp. printing Hprint.
  apply Z.eqb_eq in Hs. rewrite Hs. simpl. rewrite Hj. simpl. rewrite Hid, Hurl.
  rewrite <- app_assoc. reflexivity.
Qed.

Lemma create_on_other_status env request w r :
  provider env (outbound w) (create_request env) = Responds r ->
  prints_pass env w r ->
  status_code r ≠ 200%Z ->
  create_riddle_conversation env request w =
    (inl (HTTPException 500
            {| success := false;
               error := "500: {'success': False, 'error': " ++
                        repr env "Failed to create conversation" ++
                        ", 'details': " ++ repr env (text r) ++ "}";
               details := None |}),
     after_answered_create env request w r).
Proof.
  intros Hp Hprint Hs.
  unfold create_riddle_conversation. run.
  rewrite resolve_user_id_eq. simpl.
  fold (create_request env). rewrite Hp. printing Hprint.
  apply Z.eqb_neq in Hs. rewrite Hs.
  unfold after_answered_create. rewrite <- app_assoc. reflexivity.
Qed.

Lemma create_on_request_exception env request w msg :
  provider env (outbound w) (create_request env) = Raises (RequestException msg) ->
  create_riddle_conversation env request w =
    (inl (HTTPException 500
            {| success := false; error := "Request failed: " ++ msg; details := None |}),
     after_failed_create env request w).
Proof.
  intros Hp.
  unfold create_riddle_conversation. run.
  rewrite resolve_user_id_eq. simpl.
  fold (create_request env). rewrite Hp. reflexivity.
Qed.

(** When one of the two lines cannot be written, the request is answered
    500 with the message of that failure, and the dictionary is as it
    was. *)
Lemma create_on_print_raising env request w r e :
  provider env (outbound w) (create_request env) = Responds r ->
  stdout env (printed w) (response_line r) = Some e \/
  stdout env (printed w) (response_line r) = None /\
  stdout env (printed w ++ [response_line r]) (key_line env) = Some e ->
  (create_riddle_conversation env request w).1 =
    inl (HTTPException 500
           {| success := false; error := str_print_error e; details := None |}) /\
  active_conversations (create_riddle_conversation env request w).2 = active_conversations w /\
  clock_reads (create_riddle_conversation env request w).2 = clock_reads w.
Proof.
  intros Hp Hfail.
  unfold create_riddle_conversation. run.
  rewrite resolve_user_id_eq. simpl.
  fold (create_request env). rewrite Hp.
  unfold response_line, key_line in Hfail. simpl in Hfail. unfold print. simpl.
  destruct Hfail as [H1 | [H1 H2]].
  - rewrite H1. simpl. done.
  - rewrite H1. simpl. rewrite H2. simpl. done.
Qed.

(** What standard output did with the two lines of an answered create. *)
Lemma prints_cases env w r :
  prints_pass env w r \/
  exists e,
    stdout env (printed w) (response_line r) = Some e \/
    stdout env (printed w) (response_line r) = None /\
    stdout env (printed w ++ [response_line r]) (key_line env) = Some e.
Proof.
  unfold prints_pass.
  destruct (stdout env (printed w) (response_line r)) as [e|] eqn:H1.
  - right. exists e. by left.
  - destruct (stdout env (printed w ++ [response_line r]) (key_line env)) as [e|] eqn:H2.
    + right. exists e. by right.
    + by left.
Qed.

(** A create request that returns a response went through the 200 path. *)
Lemma create_returns env request w resp w' :
  create_riddle_conversation env request w = (inr resp, w') ->
  exists r fields cid curl,
    provider env (outbound w) (create_request env) = Responds r /\
    prints_pass env w r /\
    status_code r = 200%Z /\
    json r = JsonObject fields /\
    optional_str (get fields "conversation_id") = Some cid /\
    optional_str (get fields "conversation_url") = Some curl.
Proof.
  intros Hcreate.
  destruct (provider env (outbound w) (create_request env)) as [r|e] eqn:Hp.
  2: { revert Hcreate. unfold create_riddle_conversation. run.
       rewrite resolve_user_id_eq. simpl. fold (create_request env). rewrite Hp.
       destruct e; discriminate. }
  destruct (prints_cases env w r) as [Hprint | [e Hfail]].
  2: { destruct (create_on_print_raising env request w r e Hp Hfail) as (Hres & _).
       rewrite Hcreate in Hres. discriminate. }
  exists r. revert Hcreate.
  unfold create_riddle_conversation. run.
  rewrite resolve_user_id_eq. simpl. fold (create_request env). rewrite Hp.
  pose proof Hprint as Hprint'. printing Hprint'.
  destruct (status_code r =? 200)%Z eqn:Hs; simpl; [|discriminate].
  apply Z.eqb_eq in Hs.
  destruct (json r) as [e|fields|ty] eqn:Hj; simpl.
  - destruct e; discriminate.
  - destruct (optional_str (get fields "conversation_id")) as [cid|] eqn:Hid;
      destruct (optional_str (get fields "conversation_url")) as [curl|] eqn:Hurl;
      simpl; try discriminate.
    intros _. by exists fields, cid, curl.
  - discriminate.
Qed.

(** What any create request does to the dictionary, the log and the
    counters. *)
Lemma create_effect env request w :
  let w' := (create_riddle_conversation env request w).2 in
  (active_conversations w' = active_conversations w \/
   exists c, active_conversations w' =
               <[resolved_user_id env request w := c]> (active_conversations w)) /\
  outbound w' = (outbound w ++ [create_request env])%list /\
  uuid_draws w' = draws_after request w.
Proof.
  unfold create_riddle_conversation. run.
  rewrite resolve_user_id_eq. simpl. fold (create_request env).
  destruct (provider env (outbound w) (create_request env)) as [r|e].
  2: { destruct e; simpl; auto. }
  unfold print. simpl.
  destruct (stdout env (printed w) _); simpl; [by auto|].
  destruct (stdout env (printed w ++ _) _); simpl; [by auto|].
  destruct (status_code r =? 200)%Z; simpl; [|by auto].
  destruct (json r) as [e|fields|ty]; simpl.
  - destruct e; simpl; auto.
  - destruct (optional_str (get fields "conversation_id"));
      destruct (optional_str (get fields "conversation_url"));
      simpl; eauto.
  - auto.
Qed.

Lemma end_on_missing env request w :
  active_conversations w !! EndConversationRequest.user_id request = None ->
  end_conversation env request w = (inl not_found, w).
Proof.
  intros Hnone. unfold end_conversation. run. simpl.
  rewrite Hnone.
  rewrite (bool_decide_eq_false_2 (is_Some None)) by (intros [? ?]; discriminate).
  rewrite orb_true_r. reflexivity.
Qed.

Lemma end_on_empty_user_id env request w :
  EndConversationRequest.user_id request = "" ->
  end_conversation env request w = (inl not_found, w).
Proof.
  intros Hempty. unfold end_conversation. run. simpl.
  rewrite Hempty. reflexivity.
Qed.

(** Up to the first provider call an end request for a known, non-empty
    user only reads the dictionary. *)
Lemma end_guard_passes w user_id c :
  user_id ≠ "" ->
  active_conversations w !! user_id = Some c ->
  bool_decide (user_id = "") || negb (bool_decide (is_Some (active_conversations w !! user_id))) = false.
Proof.
  intros Hne Hsome.
  rewrite bool_decide_eq_false_2 by done.
  rewrite bool_decide_eq_true_2 by (rewrite Hsome; eauto).
  reflexivity.
Qed.

Lemma end_on_responses env request w c r1 r2 :
  EndConversationRequest.user_id request ≠ "" ->
  active_conversations w !! EndConversationRequest.user_id request = Some c ->
  provider env (outbound w) (end_request env c) = Responds r1 ->
  provider env (outbound w ++ [end_request env c]) (delete_request env c) = Responds r2 ->
  end_conversation env request w =
    (inr ended,
     {| active_conversations := delete (EndConversationRequest.user_id request) (active_conversations w);
        outbound := outbound w ++ [end_request env c; delete_request env c];
        uuid_draws := uuid_draws w;
        clock_reads := clock_reads w;
        printed := printed w |}).
Proof.
  intros Hne Hsome Hend Hdel.
  unfold end_conversation. run. simpl.
  rewrite (end_guard_passes w _ c Hne Hsome), Hsome. simpl.
  fold (end_request env c). rewrite Hend. simpl.
  fold (delete_request env c). rewrite Hdel. simpl.
  rewrite Hsome. simpl. rewrite <- app_assoc. reflexivity.
Qed.

Lemma end_on_end_raising env request w c msg :
  EndConversationRequest.user_id request ≠ "" ->
  active_conversations w !! EndConversationRequest.user_id request = Some c ->
  provider env (outbound w) (end_request env c) = Raises (RequestException msg) ->
  end_conversation env request w =
    (inl (HTTPException 500 {| success := false; error := msg; details := None |}),
     {| active_conversations := active_conversations w;
        outbound := outbound w ++ [end_request env c];
        uuid_draws := uuid_draws w;
        clock_reads := clock_reads w;
        printed := printed w |}).
Proof.
  intros Hne Hsome Hend.
  unfold end_conversation. run. simpl.
  rewrite (end_guard_passes w _ c Hne Hsome), Hsome. simpl.
  fold (end_request env c). rewrite Hend. reflexivity.
Qed.

Lemma end_on_delete_raising env request w c r1 msg :
  EndConversationRequest.user_id request ≠ "" ->
  active_conversations w !! EndConversationRequest.user_id request = Some c ->
  provider env (outbound w) (end_request env c) = Responds r1 ->
  provider env (outbound w ++ [end_request env c]) (delete_request env c) =
    Raises (RequestException msg) ->
  end_conversation env request w =
    (inl (HTTPException 500 {| success := false; error := msg; details := None |}),
     {| active_conversations := active_conversations w;
        outbound := outbound w ++ [end_request env c; delete_request env c];
        uuid_draws := uuid_draws w;
        clock_reads := clock_reads w;
        printed := printed w |}).
Proof.
  intros Hne Hsome Hend Hdel.
  unfold end_conversation. run. simpl.
  rewrite (end_guard_passes w _ c Hne Hsome), Hsome. simpl.
  fold (end_request env c). rewrite Hend. simpl.
  fold (delete_request env c). rewrite Hdel. simpl.
  rewrite <- app_assoc. reflexivity.
Qed.

(** What any end request does to the dictionary and the counters. *)
Lemma end_effect env request w :
  let w' := (end_conversation env request w).2 in
  (active_conversations w' = active_conversations w \/
   active_conversations w' =
     delete (EndConversationRequest.user_id request) (active_conversations w)) /\
  uuid_draws w' = uuid_draws w.
Proof.
  unfold end_conversation. run. simpl.
  destruct (bool_decide (EndConversationRequest.user_id request = "")
            || negb (bool_decide (is_Some (active_conversations w !!
                                             EndConversationRequest.user_id request))));
    simpl; [by auto|].
  destruct (active_conversations w !! EndConversationRequest.user_id request)
    as [c|] eqn:Hsome; simpl; [|by auto].
  destruct (provider env (outbound w) _) as [r1|e1]; simpl.
  - destruct (provider env (outbound w ++ _) _) as [r2|e2]; simpl.
    + rewrite Hsome. simpl. auto.
    + destruct e2; simpl; auto.
  - destruct e1; simpl; auto.
Qed.

(** ** Invariants of runs *)



Lemma step_no_empty_key env c w :
  active_conversations w !! "" = None ->
  active_conversations (step env c w) !! "" = None.
Proof.
  intros Hw. destruct c as [request|request| |]; simpl; try done.
  - destruct (create_effect env request w) as ([-> | [c ->]] & _); [done|].
    rewrite lookup_insert_ne; [done|]. apply resolved_user_id_nonempty.
  - destruct (end_effect env request w) as ([-> | ->] & _); [done|].
    rewrite lookup_delete_None. auto.
Qed.

Lemma reachable_no_empty_key env w :
  reachable env w -> active_conversations w !! "" = None.
Proof.
  unfold reachable. induction 1 as [|w' c _ IH]; [done|].
  by apply step_no_empty_key.
Qed.

Lemma reachable_user_id_nonempty env w user_id c :
  reachable env w -> active_conversations w !! user_id = Some c -> user_id ≠ "".
Proof.
  intros Hr Hsome ->. rewrite (reachable_no_empty_key env w Hr) in Hsome. discriminate.
Qed.

Lemma with_alice_reachable env : reachable env (with_alice env).
Proof. apply steps_step, steps_refl. Qed.

(** ** EndSession *)

(** C1, as amended.  For a user that has a record in a reachable state, if
    the provider answers the end call and the delete call (with any status
    and body), the relay sends exactly those two calls, end first, both to
    the stored conversation id, removes the record and returns success
    with the confirmation message. *)
Theorem end_conversation_after_responses env w request c r1 r2 :
  reachable env w ->
  active_conversations w !! EndConversationRequest.user_id request = Some c ->
  provider env (outbound w) (end_request env c) = Responds r1 ->
  provider env (outbound w ++ [end_request env c]) (delete_request env c) = Responds r2 ->
  exists w',
    end_conversation env request w =
      (inr {| EndConversationResponse.success := true;
              EndConversationResponse.message :=
                Some "Conversation ended and deleted successfully";
              EndConversationResponse.error := None |}, w') /\
    outbound w' = (outbound w ++ [end_request env c; delete_request env c])%list /\
    active_conversations w' =
      delete (EndConversationRequest.user_id request) (active_conversations w) /\
    active_conversations w' !! EndConversationRequest.user_id request = None.
Proof.
  intros Hreach Hsome Hend Hdel.
  pose proof (reachable_user_id_nonempty env w _ c Hreach Hsome) as Hne.
  eexists. split; [apply (end_on_responses env request w c r1 r2); assumption|].
  simpl. split; [reflexivity|]. split; [reflexivity|]. apply lookup_delete_eq.
Qed.

Lemma end_conversation_after_responses_witness :
  exists w',
    end_conversation refusing_env alice_end (with_alice refusing_env) = (inr ended, w') /\
    outbound w' =
      (outbound (with_alice refusing_env) ++
       [end_request refusing_env c1_record; delete_request refusing_env c1_record])%list /\
    active_conversations w' = delete "alice" (active_conversations (with_alice refusing_env)) /\
    active_conversations w' !! "alice" = None.
Proof.
  apply (end_conversation_after_responses refusing_env (with_alice refusing_env) alice_end
           c1_record (plain 500 "Internal Server Error") (plain 404 "Not Found")).
  - apply with_alice_reachable.
  - reflexivity.
  - reflexivity.
  - reflexivity.
Defined.

(** C1, as stated, fails when a provider call raises.  Alice has a
    record; the end call is refused at the connection: the relay answers
    500, the delete call is never sent and the record stays. *)
Lemma end_conversation_not_irrespective_of_failures :
  reachable end_down_env (with_alice end_down_env) /\
  active_conversations (with_alice end_down_env) !! "alice" = Some c1_record /\
  (end_conversation end_down_env alice_end (with_alice end_down_env)).1 =
    inl (HTTPException 500
           {| success := false; error := "connection refused"; details := None |}) /\
  (end_conversation end_down_env alice_end (with_alice end_down_env)).1 ≠ inr ended /\
  outbound (end_conversation end_down_env alice_end (with_alice end_down_env)).2 =
    [create_request end_down_env; end_request end_down_env c1_record] /\
  active_conversations (end_conversation end_down_env alice_end (with_alice end_down_env)).2
    !! "alice" = Some c1_record.
Proof.
  split; [apply with_alice_reachable|].
  repeat split; try reflexivity. discriminate.
Qed.

(** C4.  An end request for a user without a record is answered 404 with
    the not-found detail; the state, and with it the log of provider calls
    and the dictionary, is left as it was. *)
Theorem end_conversation_unknown_user env w request :
  active_conversations w !! EndConversationRequest.user_id request = None ->
  end_conversation env request w =
    (inl (HTTPException 404
            {| success := false;
               error := "No active conversation found for user";
               details := None |}),
     w).
Proof. apply end_on_missing. Qed.

Lemma end_conversation_unknown_user_witness :
  end_conversation healthy_env alice_end initial =
    (inl (HTTPException 404
            {| success := false;
               error := "No active conversation found for user";
               details := None |}),
     initial).
Proof.
  apply (end_conversation_unknown_user healthy_env initial alice_end).
  reflexivity.
Defined.

(** C7, as amended.  For a user that has a record in a reachable state, if
    the provider answers both calls of the first end request, that request
    succeeds and removes the record, and a second end request right after
    it is answered not-found and leaves the state as the first left it. *)
Theorem end_conversation_twice env w request c r1 r2 :
  reachable env w ->
  active_conversations w !! EndConversationRequest.user_id request = Some c ->
  provider env (outbound w) (end_request env c) = Responds r1 ->
  provider env (outbound w ++ [end_request env c]) (delete_request env c) = Responds r2 ->
  exists w1,
    end_conversation env request w = (inr ended, w1) /\
    active_conversations w1 !! EndConversationRequest.user_id request = None /\
    end_conversation env request w1 = (inl not_found, w1).
Proof.
  intros Hreach Hsome Hend Hdel.
  pose proof (reachable_user_id_nonempty env w _ c Hreach Hsome) as Hne.
  eexists. split; [apply (end_on_responses env request w c r1 r2); assumption|].
  assert (Hgone : delete (EndConversationRequest.user_id request) (active_conversations w)
                    !! EndConversationRequest.user_id request = None)
    by apply lookup_delete_eq.
  split; [exact Hgone|].
  apply end_on_missing. exact Hgone.
Qed.

Lemma end_conversation_twice_witness :
  exists w1,
    end_conversation healthy_env alice_end (with_alice healthy_env) = (inr ended, w1) /\
    active_conversations w1 !! "alice" = None /\
    end_conversation healthy_env alice_end w1 = (inl not_found, w1).
Proof.
  apply (end_conversation_twice healthy_env (with_alice healthy_env) alice_end
           c1_record (plain 200 "") (plain 200 "")).
  - apply with_alice_reachable.
  - reflexivity.
  - reflexivity.
  - reflexivity.
Defined.

(** C7, as stated, fails when the provider cannot be reached: alice has a
    record, the first end request is answered 500 and keeps the record, and
    the second is answered 500 again, not 404. *)
Lemma end_conversation_twice_both_fail :
  active_conversations (with_alice end_down_env) !! "alice" = Some c1_record /\
  (end_conversation end_down_env alice_end (with_alice end_down_env)).1 =
    inl (HTTPException 500
           {| success := false; error := "connection refused"; details := None |}) /\
  (end_conversation end_down_env alice_end (with_alice end_down_env)).1 ≠ inr ended /\
  (end_conversation end_down_env alice_end
     (end_conversation end_down_env alice_end (with_alice end_down_env)).2).1 =
    inl (HTTPException 500
           {| success := false; error := "connection refused"; details := None |}) /\
  (end_conversation end_down_env alice_end
     (end_conversation end_down_env alice_end (with_alice end_down_env)).2).1 ≠
    inl not_found.
Proof. repeat split; try reflexivity; discriminate. Qed.

(** C9.  For a user that has a record in a reachable state, if the end
    call raises a transport exception, or the end call is answered and the
    delete call raises one, the relay answers 500 with the message of the
    exception and the dictionary is as it was before the request. *)
Theorem end_conversation_transport_error env w request c msg :
  reachable env w ->
  active_conversations w !! EndConversationRequest.user_id request = Some c ->
  (provider env (outbound w) (end_request env c) = Raises (RequestException msg) \/
   exists r1,
     provider env (outbound w) (end_request env c) = Responds r1 /\
     provider env (outbound w ++ [end_request env c]) (delete_request env c) =
       Raises (RequestException msg)) ->
  exists w',
    end_conversation env request w =
      (inl (HTTPException 500 {| success := false; error := msg; details := None |}), w') /\
    active_conversations w' = active_conversations w.
Proof.
  intros Hreach Hsome Hfail.
  pose proof (reachable_user_id_nonempty env w _ c Hreach Hsome) as Hne.
  destruct Hfail as [Hend | (r1 & Hend & Hdel)].
  - eexists. split; [apply (end_on_end_raising env request w c msg); assumption|].
    reflexivity.
  - eexists. split; [apply (end_on_delete_raising env request w c r1 msg); assumption|].
    reflexivity.
Qed.

Lemma end_conversation_transport_error_witness :
  (exists w',
     end_conversation end_down_env alice_end (with_alice end_down_env) =
       (inl (HTTPException 500
               {| success := false; error := "connection refused"; details := None |}), w') /\
     active_conversations w' = active_conversations (with_alice end_down_env)) /\
  (exists w',
     end_conversation delete_down_env alice_end (with_alice delete_down_env) =
       (inl (HTTPException 500
               {| success := false; error := "connection reset"; details := None |}), w') /\
     active_conversations w' = active_conversations (with_alice delete_down_env)).
Proof.
  split.
  - apply (end_conversation_transport_error end_down_env (with_alice end_down_env)
             alice_end c1_record "connection refused").
    + apply with_alice_reachable.
    + reflexivity.
    + left. reflexivity.
  - apply (end_conversation_transport_error delete_down_env (with_alice delete_down_env)
             alice_end c1_record "connection reset").
    + apply with_alice_reachable.
    + reflexivity.
    + right. exists (plain 200 ""). split; reflexivity.
Defined.

(** ** CreateSession *)

(** C2, as amended.  When the provider answers the create call with
    status 200 and a body that decodes to a JSON object whose
    [conversation_id] and [conversation_url] are each a string, null or
    absent, and the two lines the handler prints about the answer are
    written to standard output without an exception, the relay stores a
    record under the resolved user id, holding that conversation id, and
    returns success with the conversation id, the conversation url and the
    user id it used. *)
Theorem create_conversation_on_200 env w request r fields cid curl :
  provider env (outbound w) (create_request env) = Responds r ->
  stdout env (printed w) (response_line r) = None ->
  stdout env (printed w ++ [response_line r]) (key_line env) = None ->
  status_code r = 200%Z ->
  json r = JsonObject fields ->
  optional_str (get fields "conversation_id") = Some cid ->
  optional_str (get fields "conversation_url") = Some curl ->
  exists w',
    create_riddle_conversation env request w =
      (inr {| ConversationResponse.success := true;
              ConversationResponse.conversation_id := cid;
              ConversationResponse.conversation_url := curl;
              ConversationResponse.user_id := Some (resolved_user_id env request w);
              ConversationResponse.error := None;
              ConversationResponse.details := None |}, w') /\
    active_conversations w' =
      <[resolved_user_id env request w :=
          {| conversation_id := get fields "conversation_id";
             created_at := now_isoformat env (clock_reads w) |}]> (active_conversations w) /\
    active_conversations w' !! resolved_user_id env request w =
      Some {| conversation_id := get fields "conversation_id";
              created_at := now_isoformat env (clock_reads w) |}.
Proof.
  intros Hp Hline Hkey Hs Hj Hid Hurl.
  eexists. split.
  - apply (create_on_object env request w r fields cid curl); try assumption.
    by split.
  - simpl. split; [reflexivity|]. apply lookup_insert_eq.
Qed.

Lemma create_conversation_on_200_witness :
  exists w',
    create_riddle_conversation healthy_env alice_create initial =
      (inr {| ConversationResponse.success := true;
              ConversationResponse.conversation_id := Some "c1";
              ConversationResponse.conversation_url := Some "u1";
              ConversationResponse.user_id := Some "alice";
              ConversationResponse.error := None;
              ConversationResponse.details := None |}, w') /\
    active_conversations w' = <["alice" := c1_record]> ∅ /\
    active_conversations w' !! "alice" = Some c1_record.
Proof.
  exact (create_conversation_on_200 healthy_env initial alice_create (created "c1" "u1")
           {[ "conversation_id" := PyStr "c1"; "conversation_url" := PyStr "u1" ]}
           (Some "c1") (Some "u1") eq_refl eq_refl eq_refl eq_refl eq_refl eq_refl eq_refl).
Defined.

(** C2, as stated, fails in two ways.  For a 200 answer whose body is not
    JSON, [response.json()] raises: the relay answers 500 and stores
    nothing.  For a 200 answer with both identifiers in a JSON object whose
    text standard output cannot encode, the first [print] raises: the relay
    answers 500 with the message of the encoding error and stores
    nothing. *)
Lemma create_conversation_200_without_json :
  (provider html_env (outbound initial) (create_request html_env) =
     Responds (plain 200 "<html>ok</html>") /\
   (create_riddle_conversation html_env alice_create initial).1 =
     inl (HTTPException 500
            {| success := false;
               error := "Request failed: Expecting value: line 1 column 1 (char 0)";
               details := None |}) /\
   (forall resp,
      (create_riddle_conversation html_env alice_create initial).1 ≠ inr resp) /\
   active_conversations (create_riddle_conversation html_env alice_create initial).2 = ∅) /\
  (provider ascii_only_env (outbound initial) (create_request ascii_only_env) =
     Responds {| status_code := 200;
                 text := String "233"%char "";
                 json := JsonObject {[ "conversation_id" := PyStr "c1";
                                       "conversation_url" := PyStr "u1" ]} |} /\
   (create_riddle_conversation ascii_only_env alice_create initial).1 =
     inl (HTTPException 500
            {| success := false;
               error := "'ascii' codec can't encode character '\xe9' in position 24: ordinal not in range(128)";
               details := None |}) /\
   (forall resp,
      (create_riddle_conversation ascii_only_env alice_create initial).1 ≠ inr resp) /\
   active_conversations (create_riddle_conversation ascii_only_env alice_create initial).2 = ∅).
Proof. repeat split; try reflexivity; intros resp; discriminate. Qed.

(** C3 at a 503 answer with body [unavailable].  The [HTTPException]
    raised for the provider's answer is caught by the handler's own
    [except Exception] clause and raised again with its printed form as the
    error: the answer is a 500 whose detail has no [details] entry, not the
    detail that was built with the body in it.  The dictionary stays
    empty. *)
Theorem create_conversation_on_503 :
  (create_riddle_conversation unavailable_env alice_create initial).1 =
    inl (HTTPException 500
           {| success := false;
              error := "500: {'success': False, 'error': 'Failed to create conversation', 'details': 'unavailable'}";
              details := None |}) /\
  (create_riddle_conversation unavailable_env alice_create initial).1 ≠
    inl (HTTPException 500
           {| success := false;
              error := "Failed to create conversation";
              details := Some "unavailable" |}) /\
  active_conversations (create_riddle_conversation unavailable_env alice_create initial).2 = ∅.
Proof. split; [reflexivity|]. split; [discriminate|reflexivity]. Qed.

(** C6.  When the create call raises a transport exception, the relay
    answers 500 with the error [Request failed: ] followed by the message
    of the exception and leaves the dictionary as it was; no answer the
    relay gives for a provider response with a status other than 200, in
    any state, equals it. *)
Theorem create_conversation_transport_error env w request msg :
  provider env (outbound w) (create_request env) = Raises (RequestException msg) ->
  (create_riddle_conversation env request w).1 =
    inl (HTTPException 500
           {| success := false; error := "Request failed: " ++ msg; details := None |}) /\
  active_conversations (create_riddle_conversation env request w).2 = active_conversations w /\
  forall env' w' request' r,
    provider env' (outbound w') (create_request env') = Responds r ->
    status_code r ≠ 200%Z ->
    (create_riddle_conversation env' request' w').1 ≠
    (create_riddle_conversation env request w).1.
Proof.
  intros Hp.
  rewrite (create_on_request_exception env request w msg Hp). simpl.
  split; [reflexivity|]. split; [reflexivity|].
  intros env' w' request' r Hp' Hs'.
  destruct (prints_cases env' w' r) as [Hprint | [e Hfail]].
  - rewrite (create_on_other_status env' request' w' r Hp' Hprint Hs'). simpl.
    intros Heq. discriminate Heq.
  - destruct (create_on_print_raising env' request' w' r e Hp' Hfail) as (-> & _).
    destruct e; simpl; intros Heq; discriminate Heq.
Qed.

Lemma create_conversation_transport_error_witness :
  (create_riddle_conversation down_env alice_create initial).1 =
    inl (HTTPException 500
           {| success := false;
              error := "Request failed: connection refused";
              details := None |}) /\
  active_conversations (create_riddle_conversation down_env alice_create initial).2 = ∅ /\
  forall env' w' request' r,
    provider env' (outbound w') (create_request env') = Responds r ->
    status_code r ≠ 200%Z ->
    (create_riddle_conversation env' request' w').1 ≠
    (create_riddle_conversation down_env alice_create initial).1.
Proof.
  apply (create_conversation_transport_error down_env initial alice_create "connection refused").
  reflexivity.
Defined.

(** C8.  In every reachable state the dictionary lists each user id once;
    and a create request that succeeds for a user id that already has a
    record replaces that record by one holding the conversation id just
    returned: the number of records is the same and no other user's record
    changes. *)
Theorem one_record_per_user env w :
  reachable env w ->
  NoDup (map_to_list (active_conversations w)).*1 /\
  forall request resp w' old,
    active_conversations w !! resolved_user_id env request w = Some old ->
    create_riddle_conversation env request w = (inr resp, w') ->
    exists new,
      active_conversations w' =
        <[resolved_user_id env request w := new]> (active_conversations w) /\
      optional_str (conversation_id new) = Some (ConversationResponse.conversation_id resp) /\
      NoDup (map_to_list (active_conversations w')).*1 /\
      size (active_conversations w') = size (active_conversations w).
Proof.
  intros _. split; [apply NoDup_fst_map_to_list|].
  intros request resp w' old Hold Hcreate.
  destruct (create_returns env request w resp w' Hcreate)
    as (r & fields & cid & curl & Hp & Hprint & Hs & Hj & Hid & Hurl).
  rewrite (create_on_object env request w r fields cid curl Hp Hprint Hs Hj Hid Hurl)
    in Hcreate.
  injection Hcreate as <- <-. simpl.
  eexists. split; [reflexivity|]. simpl.
  split; [exact Hid|]. split; [apply NoDup_fst_map_to_list|].
  apply map_size_insert_Some. rewrite Hold. eauto.
Qed.

Lemma one_record_per_user_witness :
  NoDup (map_to_list (active_conversations (with_alice healthy_env))).*1 /\
  exists new,
    active_conversations (step healthy_env (CreateRiddleConversation alice_create)
                            (with_alice healthy_env)) =
      <["alice" := new]> (active_conversations (with_alice healthy_env)) /\
    optional_str (conversation_id new) = Some (Some "c1") /\
    NoDup (map_to_list
             (active_conversations (step healthy_env (CreateRiddleConversation alice_create)
                                      (with_alice healthy_env)))).*1 /\
    size (active_conversations (step healthy_env (CreateRiddleConversation alice_create)
                                  (with_alice healthy_env))) = 1%nat.
Proof.
  destruct (one_record_per_user healthy_env (with_alice healthy_env)
              (with_alice_reachable healthy_env)) as [Hnodup Hreplace].
  split; [exact Hnodup|].
  exact (Hreplace alice_create _ _ c1_record eq_refl eq_refl).
Defined.

(** ** HealthCheck *)

(** C5.  The health check answers the status [healthy] and the number of
    records in the dictionary, and returns the state it was given: it
    sends nothing to the provider and changes no record. *)
Theorem health_check_reports w :
  health_check w =
    (inr {| Health.status := "healthy";
            Health.active_conversations := size (active_conversations w);
            Health.framework := "FastAPI" |},
     w).
Proof. reflexivity. Qed.

(** ** Generated user ids *)












(** * Further properties of the handlers *)

Lemma create_state_on_object env request w r fields :
  provider env (outbound w) (create_request env) = Responds r ->
  prints_pass env w r ->
  status_code r = 200%Z ->
  json r = JsonObject fields ->
  (create_riddle_conversation env request w).2 =
    {| active_conversations :=
         <[resolved_user_id env request w := record_of env fields w]> (active_conversations w);
       outbound := outbound w ++ [create_request env];
       uuid_draws := draws_after request w;
       clock_reads := S (clock_reads w);
       printed := printed w ++ [response_line r; key_line env] |}.
Proof.
  intros Hp Hprint Hs Hj.
  unfold create_riddle_conversation. run.
  rewrite resolve_user_id_eq. simpl.
  fold (create_request env). rewrite Hp. printing Hprint.
  apply Z.eqb_eq in Hs. rewrite Hs. simpl. rewrite Hj. simpl.
  rewrite <- app_assoc.
  destruct (optional_str (get fields "conversation_id"));
    destruct (optional_str (get fields "conversation_url")); reflexivity.
Qed.

Lemma create_result_on_refused env request w r fields :
  provider env (outbound w) (create_request env) = Responds r ->
  prints_pass env w r ->
  status_code r = 200%Z ->
  json r = JsonObject fields ->
  optional_str (get fields "conversation_id") = None \/
  optional_str (get fields "conversation_url") = None ->
  (create_riddle_conversation env request w).1 =
    inl (HTTPException 500
           {| success := false;
              error := validation_error env "ConversationResponse"
                         (refused [("conversation_id", get fields "conversation_id");
                                   ("conversation_url", get fields "conversation_url")]);
              details := None |}).
Proof.
  intros Hp Hprint Hs Hj Href.
  unfold create_riddle_conversation. run.
  rewrite resolve_user_id_eq. simpl.
  fold (create_request env). rewrite Hp. printing Hprint.
  apply Z.eqb_eq in Hs. rewrite Hs. simpl. rewrite Hj. simpl.
  destruct (optional_str (get fields "conversation_id")) eqn:Hid;
    destruct (optional_str (get fields "conversation_url")) eqn:Hurl;
    try reflexivity.
  destruct Href; discriminate.
Qed.

Lemma create_on_json_other env request w r type_name :
  provider env (outbound w) (create_request env) = Responds r ->
  prints_pass env w r ->
  status_code r = 200%Z ->
  json r = JsonOther type_name ->
  create_riddle_conversation env request w =
    (inl (HTTPException 500
            {| success := false;
               error := "'" ++ type_name ++ "' object has no attribute 'get'";
               details := None |}),
     after_answered_create env request w r).
Proof.
  intros Hp Hprint Hs Hj.
  unfold create_riddle_conversation. run.
  rewrite resolve_user_id_eq. simpl.
  fold (create_request env). rewrite Hp. printing Hprint.
  apply Z.eqb_eq in Hs. rewrite Hs. simpl. rewrite Hj.
  unfold after_answered_create. rewrite <- app_assoc. reflexivity.
Qed.

Lemma create_on_json_raising env request w r msg :
  provider env (outbound w) (create_request env) = Responds r ->
  prints_pass env w r ->
  status_code r = 200%Z ->
  json r = JsonRaises (RequestException msg) ->
  create_riddle_conversation env request w =
    (inl (HTTPException 500
            {| success := false; error := "Request failed: " ++ msg; details := None |}),
     after_answered_create env request w r).
Proof.
  intros Hp Hprint Hs Hj.
  unfold create_riddle_conversation. run.
  rewrite resolve_user_id_eq. simpl.
  fold (create_request env). rewrite Hp. printing Hprint.
  apply Z.eqb_eq in Hs. rewrite Hs. simpl. rewrite Hj.
  unfold after_answered_create. rewrite <- app_assoc. reflexivity.
Qed.

(** Every error a create request answers with. *)
Lemma create_error_shape env request w e :
  (create_riddle_conversation env request w).1 = inl e ->
  exists msg,
    e = HTTPException 500 {| success := false; error := msg; details := None |}.
Proof.
  unfold create_riddle_conversation. run.
  rewrite resolve_user_id_eq. simpl. fold (create_request env).
  destruct (provider env (outbound w) (create_request env)) as [r|e0].
  2: { destruct e0; simpl; intros [= <-]; eauto. }
  unfold print. simpl.
  destruct (stdout env (printed w) _); simpl; [intros [= <-]; eauto|].
  destruct (stdout env (printed w ++ _) _); simpl; [intros [= <-]; eauto|].
  destruct (status_code r =? 200)%Z; simpl.
  - destruct (json r) as [e0|fields|ty]; simpl.
    + destruct e0; simpl; intros [= <-]; eauto.
    + destruct (optional_str (get fields "conversation_id"));
        destruct (optional_str (get fields "conversation_url"));
        simpl; intros [= <-]; eauto.
    + intros [= <-]; eauto.
  - intros [= <-]; eauto.
Qed.

(** The dictionary after a create request, unless the provider answered
    200 with an object. *)
Lemma create_state_otherwise env request w :
  match provider env (outbound w) (create_request env) with
  | Responds r => status_code r ≠ 200%Z \/ forall fields, json r ≠ JsonObject fields
  | Raises _ => True
  end ->
  active_conversations (create_riddle_conversation env request w).2 = active_conversations w.
Proof.
  unfold create_riddle_conversation. run.
  rewrite resolve_user_id_eq. simpl. fold (create_request env).
  destruct (provider env (outbound w) (create_request env)) as [r|e0].
  2: { intros _. destruct e0; reflexivity. }
  unfold print. simpl.
  destruct (stdout env (printed w) _); simpl; [done|].
  destruct (stdout env (printed w ++ _) _); simpl; [done|].
  destruct (status_code r =? 200)%Z eqn:Hs; simpl; [|done].
  apply Z.eqb_eq in Hs. intros [Hne | Hobj]; [done|].
  destruct (json r) as [e0|fields|ty]; simpl.
  - destruct e0; reflexivity.
  - destruct (Hobj fields eq_refl).
  - reflexivity.
Qed.

(** The states an end request can leave, with the calls it sent. *)
Lemma end_state_cases env request w :
  (end_conversation env request w).2 = w \/
  exists c,
    EndConversationRequest.user_id request ≠ "" /\
    active_conversations w !! EndConversationRequest.user_id request = Some c /\
    ((end_conversation env request w).2 =
       {| active_conversations := active_conversations w;
          outbound := outbound w ++ [end_request env c];
          uuid_draws := uuid_draws w;
          clock_reads := clock_reads w;
          printed := printed w |} \/
     (end_conversation env request w).2 =
       {| active_conversations := active_conversations w;
          outbound := outbound w ++ [end_request env c; delete_request env c];
          uuid_draws := uuid_draws w;
          clock_reads := clock_reads w;
          printed := printed w |} \/
     (end_conversation env request w).1 = inr ended /\
     (end_conversation env request w).2 =
       {| active_conversations :=
            delete (EndConversationRequest.user_id request) (active_conversations w);
          outbound := outbound w ++ [end_request env c; delete_request env c];
          uuid_draws := uuid_draws w;
          clock_reads := clock_reads w;
          printed := printed w |}).
Proof.
  destruct (decide (EndConversationRequest.user_id request = "")) as [Hempty|Hne].
  { left. by rewrite end_on_empty_user_id. }
  destruct (active_conversations w !! EndConversationRequest.user_id request)
    as [c|] eqn:Hsome.
  2: { left. by rewrite end_on_missing. }
  right. exists c. split; [done|]. split; [done|].
  unfold end_conversation. run. simpl.
  rewrite (end_guard_passes w _ c Hne Hsome), Hsome. simpl.
  fold (end_request env c).
  destruct (provider env (outbound w) (end_request env c)) as [r1|e1]; simpl.
  - fold (delete_request env c).
    destruct (provider env (outbound w ++ [end_request env c]) (delete_request env c))
      as [r2|e2]; simpl.
    + rewrite Hsome. simpl. rewrite <- app_assoc. right. right. split; reflexivity.
    + rewrite <- app_assoc. right. left. destruct e2; reflexivity.
  - left. destruct e1; reflexivity.
Qed.

(** Every error an end request answers with, when the provider itself
    raises no [HTTPException]. *)
Lemma end_error_shape env request w e :
  (forall log r sc d, provider env log r ≠ Raises (HTTPException sc d)) ->
  (end_conversation env request w).1 = inl e ->
  e = not_found \/
  exists msg, e = HTTPException 500 {| success := false; error := msg; details := None |}.
Proof.
  intros Hprov.
  destruct (decide (EndConversationRequest.user_id request = "")) as [Hempty|Hne].
  { rewrite end_on_empty_user_id by done. intros [= <-]. by left. }
  destruct (active_conversations w !! EndConversationRequest.user_id request)
    as [c|] eqn:Hsome.
  2: { rewrite end_on_missing by done. intros [= <-]. by left. }
  unfold end_conversation. run. simpl.
  rewrite (end_guard_passes w _ c Hne Hsome), Hsome. simpl.
  fold (end_request env c).
  destruct (provider env (outbound w) (end_request env c)) as [r1|e1] eqn:Hend; simpl.
  - fold (delete_request env c).
    destruct (provider env (outbound w ++ [end_request env c]) (delete_request env c))
      as [r2|e2] eqn:Hdel; simpl.
    + rewrite Hsome. simpl. discriminate.
    + destruct e2; simpl; intros [= <-]; eauto.
      destruct (Hprov _ _ _ _ Hdel).
  - destruct e1; simpl; intros [= <-]; eauto.
    destruct (Hprov _ _ _ _ Hend).
Qed.

Lemma stub_raises_no_http_exception on_create on_end on_delete :
  (forall sc d, on_create ≠ Raises (HTTPException sc d)) ->
  (forall sc d, on_end ≠ Raises (HTTPException sc d)) ->
  (forall sc d, on_delete ≠ Raises (HTTPException sc d)) ->
  forall log r sc d,
    provider (stub_env on_create on_end on_delete) log r ≠ Raises (HTTPException sc d).
Proof.
  intros Hc He Hd log r sc d. simpl. unfold stub_provider.
  destruct (method r), (json_payload r); auto.
Qed.

Lemma creations_app log1 log2 : creations (log1 ++ log2) = (creations log1 + creations log2)%nat.
Proof. unfold creations. by rewrite filter_app, length_app. Qed.

Lemma creations_create_request env : creations [create_request env] = 1%nat.
Proof. reflexivity. Qed.

Lemma step_creations env c w :
  (size (active_conversations w) <= creations (outbound w))%nat ->
  (size (active_conversations (step env c w)) <= creations (outbound (step env c w)))%nat.
Proof.
  intros Hw. destruct c as [request|request| |]; simpl; try done.
  - destruct (create_effect env request w) as (Hact & -> & _).
    rewrite creations_app, creations_create_request.
    destruct Hact as [-> | [c ->]]; [lia|].
    rewrite map_size_insert.
    destruct (active_conversations w !! resolved_user_id env request w); simpl; lia.
  - destruct (end_state_cases env request w)
      as [-> | (c & _ & _ & [-> | [-> | [_ ->]]])]; simpl; try done.
    + rewrite creations_app. lia.
    + rewrite creations_app. lia.
    + rewrite creations_app, map_size_delete.
      destruct (active_conversations w !! EndConversationRequest.user_id request);
        simpl; lia.
Qed.

Lemma end_after_create env request w r fields r1 r2 :
  provider env (outbound w) (create_request env) = Responds r ->
  prints_pass env w r ->
  status_code r = 200%Z ->
  json r = JsonObject fields ->
  provider env (outbound w ++ [create_request env])
    (end_request env (record_of env fields w)) = Responds r1 ->
  provider env ((outbound w ++ [create_request env]) ++ [end_request env (record_of env fields w)])
    (delete_request env (record_of env fields w)) = Responds r2 ->
  end_conversation env (end_for (resolved_user_id env request w))
    (create_riddle_conversation env request w).2 =
    (inr ended,
     {| active_conversations := delete (resolved_user_id env request w) (active_conversations w);
        outbound := (outbound w ++ [create_request env]) ++
                    [end_request env (record_of env fields w);
                     delete_request env (record_of env fields w)];
        uuid_draws := draws_after request w;
        clock_reads := S (clock_reads w);
        printed := printed w ++ [response_line r; key_line env] |}).
Proof.
  intros Hp Hprint Hs Hj Hend Hdel.
  rewrite (create_state_on_object env request w r fields Hp Hprint Hs Hj).
  rewrite (end_on_responses env _ _ (record_of env fields w) r1 r2); simpl.
  - by rewrite delete_insert_eq.
  - apply resolved_user_id_nonempty.
  - apply lookup_insert_eq.
  - exact Hend.
  - exact Hdel.
Qed.

Lemma create_returned_user_id env request w resp w' :
  create_riddle_conversation env request w = (inr resp, w') ->
  ConversationResponse.user_id resp = Some (resolved_user_id env request w) /\
  ConversationResponse.success resp = true.
Proof.
  intros Hcreate.
  destruct (create_returns env request w resp w' Hcreate)
    as (r & fields & cid & curl & Hp & Hprint & Hs & Hj & Hid & Hurl).
  rewrite (create_on_object env request w r fields cid curl Hp Hprint Hs Hj Hid Hurl)
    in Hcreate.
  by injection Hcreate as <- <-.
Qed.

(** ** Edge inputs *)

(** X1.  An end request with the empty string as user id is answered 404
    in every state, before the dictionary is looked at; nothing is sent and
    nothing changes. *)
Theorem end_conversation_empty_user_id env w :
  end_conversation env (end_for "") w =
    (inl (HTTPException 404
            {| success := false;
               error := "No active conversation found for user";
               details := None |}),
     w).
Proof. by apply end_on_empty_user_id. Qed.

(** X2.  A create request whose user id is the empty string is served
    exactly like one without a user id: the empty string is falsy, so an
    identifier is generated in its place.  Nothing is stored under the
    empty string, and a success answer names the generated identifier. *)
Theorem create_conversation_empty_user_id env w :
  create_riddle_conversation env empty_create w =
    create_riddle_conversation env anonymous_create w /\
  active_conversations (create_riddle_conversation env empty_create w).2 !! "" =
    active_conversations w !! "" /\
  forall resp w',
    create_riddle_conversation env empty_create w = (inr resp, w') ->
    ConversationResponse.user_id resp = Some (str_uuid (uuid4 env (uuid_draws w))).
Proof.
  split; [reflexivity|]. split.
  - destruct (create_effect env empty_create w) as ([-> | [c ->]] & _); [done|].
    rewrite lookup_insert_ne; [done|]. apply resolved_user_id_nonempty.
  - intros resp w' Hcreate.
    by destruct (create_returned_user_id env empty_create w resp w' Hcreate).
Qed.

Lemma create_conversation_empty_user_id_witness :
  Some "00000000-0000-0000-0000-000000000000" =
  Some (str_uuid (uuid4 healthy_env (uuid_draws initial))).
Proof.
  exact (proj2 (proj2 (create_conversation_empty_user_id healthy_env initial)) _ _ eq_refl).
Defined.

(** ** Calls to the provider *)

(** X3.  Whatever the provider does and whatever the relay answers, a
    create request hands exactly one call to the provider, the POST to the
    creation endpoint with the configured key and identifiers: no call is
    skipped for unset configuration and none is repeated. *)
Theorem create_conversation_sends_one_call env request w :
  outbound (create_riddle_conversation env request w).2 =
    (outbound w ++
     [{| method := POST;
         url := "https://tavusapi.com/v2/conversations";
         json_payload := Some (payload_of_env env);
         headers := {| x_api_key := TAVUS_API_KEY env;
                       content_type := "application/json" |} |}])%list.
Proof. by destruct (create_effect env request w) as (_ & -> & _). Qed.

(** X4.  An end request sends nothing, or the end call alone, or the end
    call followed by the delete call, both for the record found under the
    user id; the record is removed only after both calls were sent, and
    then the answer is the success message. *)
Theorem end_conversation_calls env request w :
  (outbound (end_conversation env request w).2 = outbound w /\
   active_conversations (end_conversation env request w).2 = active_conversations w) \/
  exists c,
    active_conversations w !! EndConversationRequest.user_id request = Some c /\
    ((outbound (end_conversation env request w).2 =
        (outbound w ++ [end_request env c])%list /\
      active_conversations (end_conversation env request w).2 = active_conversations w) \/
     (outbound (end_conversation env request w).2 =
        (outbound w ++ [end_request env c; delete_request env c])%list /\
      (active_conversations (end_conversation env request w).2 = active_conversations w \/
       (end_conversation env request w).1 = inr ended /\
       active_conversations (end_conversation env request w).2 =
         delete (EndConversationRequest.user_id request) (active_conversations w)))).
Proof.
  destruct (end_state_cases env request w)
    as [-> | (c & _ & Hsome & [-> | [-> | [Hok ->]]])]; simpl.
  - by left.
  - right. exists c. split; [done|]. by left.
  - right. exists c. split; [done|]. right. split; [done|]. by left.
  - right. exists c. split; [done|]. right. split; [done|]. by right.
Qed.

(** ** Error answers *)

(** X5.  Every error a create request answers with is a 500 whose detail
    has [success] false, an [error] text and no [details] entry; no other
    status and no other exception leaves the handler. *)
Theorem create_conversation_errors_are_500 env request w e :
  (create_riddle_conversation env request w).1 = inl e ->
  exists msg,
    e = HTTPException 500 {| success := false; error := msg; details := None |}.
Proof. apply create_error_shape. Qed.

Lemma create_conversation_errors_are_500_witness :
  exists msg,
    HTTPException 500
      {| success := false; error := "Request failed: connection refused"; details := None |} =
    HTTPException 500 {| success := false; error := msg; details := None |}.
Proof.
  exact (create_conversation_errors_are_500 down_env alice_create initial _ eq_refl).
Defined.

(** X6.  When the provider calls raise no [HTTPException] of their own,
    every error an end request answers with is the 404 not-found or a 500
    whose detail has [success] false and an [error] text. *)
Theorem end_conversation_errors_are_404_or_500 env request w e :
  (forall log r sc d, provider env log r ≠ Raises (HTTPException sc d)) ->
  (end_conversation env request w).1 = inl e ->
  e = HTTPException 404
        {| success := false;
           error := "No active conversation found for user";
           details := None |} \/
  exists msg,
    e = HTTPException 500 {| success := false; error := msg; details := None |}.
Proof. apply end_error_shape. Qed.

Lemma end_conversation_errors_are_404_or_500_witness :
  HTTPException 500 {| success := false; error := "connection refused"; details := None |} =
  HTTPException 404
    {| success := false;
       error := "No active conversation found for user";
       details := None |} \/
  exists msg,
    HTTPException 500 {| success := false; error := "connection refused"; details := None |} =
    HTTPException 500 {| success := false; error := msg; details := None |}.
Proof.
  refine (end_conversation_errors_are_404_or_500 end_down_env alice_end
            (with_alice end_down_env) _ _ eq_refl).
  apply stub_raises_no_http_exception; intros sc d; discriminate.
Defined.

(** X23.  When the provider answered the create call, with whatever
    status, and standard output refuses the first or the second of the two
    lines the handler prints, the relay answers 500 with the message of the
    write error and stores no record, although the call went out. *)
Theorem create_conversation_print_failure env request w r e :
  provider env (outbound w) (create_request env) = Responds r ->
  stdout env (printed w) (response_line r) = Some e \/
  stdout env (printed w) (response_line r) = None /\
  stdout env (printed w ++ [response_line r]) (key_line env) = Some e ->
  (create_riddle_conversation env request w).1 =
    inl (HTTPException 500
           {| success := false; error := str_print_error e; details := None |}) /\
  active_conversations (create_riddle_conversation env request w).2 = active_conversations w /\
  outbound (create_riddle_conversation env request w).2 =
    (outbound w ++ [create_request env])%list.
Proof.
  intros Hp Hfail.
  destruct (create_on_print_raising env request w r e Hp Hfail) as (Hres & Hact & _).
  split; [exact Hres|]. split; [exact Hact|].
  by destruct (create_effect env request w) as (_ & -> & _).
Qed.

Lemma create_conversation_print_failure_witness :
  (create_riddle_conversation ascii_only_env alice_create initial).1 =
    inl (HTTPException 500
           {| success := false;
              error := "'ascii' codec can't encode character '\xe9' in position 24: ordinal not in range(128)";
              details := None |}) /\
  active_conversations (create_riddle_conversation ascii_only_env alice_create initial).2 = ∅ /\
  outbound (create_riddle_conversation ascii_only_env alice_create initial).2 =
    [create_request ascii_only_env].
Proof.
  exact (create_conversation_print_failure ascii_only_env alice_create initial _
           (UnicodeEncodeError "ascii"
              "character '\xe9' in position 24: ordinal not in range(128)")
           eq_refl (or_introl eq_refl)).
Defined.

(** ** What a create request does to the dictionary *)

(** X7.  On a 200 answer with an object body, once its two lines are
    printed, the record is written before the response model is built: when
    a returned identifier is not a string (nor null), the relay answers 500
    and yet the record is stored under the user id. *)
Theorem create_conversation_stores_before_validation env request w r fields :
  provider env (outbound w) (create_request env) = Responds r ->
  stdout env (printed w) (response_line r) = None ->
  stdout env (printed w ++ [response_line r]) (key_line env) = None ->
  status_code r = 200%Z ->
  json r = JsonObject fields ->
  optional_str (get fields "conversation_id") = None \/
  optional_str (get fields "conversation_url") = None ->
  (exists msg,
     (create_riddle_conversation env request w).1 =
       inl (HTTPException 500 {| success := false; error := msg; details := None |})) /\
  active_conversations (create_riddle_conversation env request w).2
    !! resolved_user_id env request w =
    Some {| conversation_id := get fields "conversation_id";
            created_at := now_isoformat env (clock_reads w) |}.
Proof.
  intros Hp Hline Hkey Hs Hj Href.
  assert (Hprint : prints_pass env w r) by by split.
  split.
  - eexists. apply (create_result_on_refused env request w r fields); assumption.
  - rewrite (create_state_on_object env request w r fields Hp Hprint Hs Hj). simpl.
    apply lookup_insert_eq.
Qed.

Lemma create_conversation_stores_before_validation_witness :
  (exists msg,
     (create_riddle_conversation numeric_env alice_create initial).1 =
       inl (HTTPException 500 {| success := false; error := msg; details := None |})) /\
  active_conversations (create_riddle_conversation numeric_env alice_create initial).2
    !! "alice" =
    Some {| conversation_id := PyOther "42"; created_at := "2025-06-01T12:00:00" |}.
Proof.
  exact (create_conversation_stores_before_validation numeric_env alice_create initial
           (answered {[ "conversation_id" := PyOther "42"; "conversation_url" := PyStr "u1" ]})
           {[ "conversation_id" := PyOther "42"; "conversation_url" := PyStr "u1" ]}
           eq_refl eq_refl eq_refl eq_refl eq_refl (or_introl eq_refl)).
Defined.

(** X8.  Unless the provider answered the create call with status 200 and
    a body that decodes to an object, a create request leaves the
    dictionary as it was. *)
Theorem create_conversation_keeps_mapping env request w :
  match provider env (outbound w) (create_request env) with
  | Responds r => status_code r ≠ 200%Z \/ forall fields, json r ≠ JsonObject fields
  | Raises _ => True
  end ->
  active_conversations (create_riddle_conversation env request w).2 = active_conversations w.
Proof. apply create_state_otherwise. Qed.

Lemma create_conversation_keeps_mapping_witness :
  active_conversations
    (create_riddle_conversation listing_env alice_create (with_alice healthy_env)).2 =
  active_conversations (with_alice healthy_env).
Proof.
  apply (create_conversation_keeps_mapping listing_env alice_create (with_alice healthy_env)).
  right. intros fields. discriminate.
Defined.

(** X9.  A create request changes the dictionary at one key at most:
    every user id keeps the record it had, or it is the user id of the
    request and has a record afterwards.  No record is removed. *)
Theorem create_conversation_frame env request w user_id :
  active_conversations (create_riddle_conversation env request w).2 !! user_id =
    active_conversations w !! user_id \/
  user_id = resolved_user_id env request w /\
  is_Some (active_conversations (create_riddle_conversation env request w).2 !! user_id).
Proof.
  destruct (create_effect env request w) as ([-> | [c ->]] & _); [by left|].
  destruct (decide (user_id = resolved_user_id env request w)) as [->|Hne].
  - right. split; [done|]. rewrite lookup_insert_eq. eauto.
  - left. by rewrite lookup_insert_ne.
Qed.

(** X10.  An end request changes the dictionary at one key at most: every
    user id keeps the record it had, or it is the user id of the request
    and has no record afterwards.  No record is added. *)
Theorem end_conversation_frame env request w user_id :
  active_conversations (end_conversation env request w).2 !! user_id =
    active_conversations w !! user_id \/
  user_id = EndConversationRequest.user_id request /\
  active_conversations (end_conversation env request w).2 !! user_id = None.
Proof.
  destruct (end_effect env request w) as ([-> | ->] & _); [by left|].
  destruct (decide (user_id = EndConversationRequest.user_id request)) as [->|Hne].
  - right. split; [done|]. apply lookup_delete_eq.
  - left. by rewrite lookup_delete_ne.
Qed.

(** X18.  A 200 answer whose body decodes to something other than an
    object is answered 500, once its two lines are printed, with the text
    of the attribute error of [.get]; the dictionary is unchanged and the
    clock is not read. *)
Theorem create_conversation_non_object_body env request w r type_name :
  provider env (outbound w) (create_request env) = Responds r ->
  stdout env (printed w) (response_line r) = None ->
  stdout env (printed w ++ [response_line r]) (key_line env) = None ->
  status_code r = 200%Z ->
  json r = JsonOther type_name ->
  (create_riddle_conversation env request w).1 =
    inl (HTTPException 500
           {| success := false;
              error := "'" ++ type_name ++ "' object has no attribute 'get'";
              details := None |}) /\
  active_conversations (create_riddle_conversation env request w).2 = active_conversations w /\
  clock_reads (create_riddle_conversation env request w).2 = clock_reads w.
Proof.
  intros Hp Hline Hkey Hs Hj.
  by rewrite (create_on_json_other env request w r type_name Hp (conj Hline Hkey) Hs Hj).
Qed.

Lemma create_conversation_non_object_body_witness :
  (create_riddle_conversation listing_env alice_create initial).1 =
    inl (HTTPException 500
           {| success := false;
              error := "'list' object has no attribute 'get'";
              details := None |}) /\
  active_conversations (create_riddle_conversation listing_env alice_create initial).2 = ∅ /\
  clock_reads (create_riddle_conversation listing_env alice_create initial).2 = 0%nat.
Proof.
  exact (create_conversation_non_object_body listing_env alice_create initial listed "list"
           eq_refl eq_refl eq_refl eq_refl eq_refl).
Defined.

(** X19.  A 200 answer whose body cannot be decoded, [response.json()]
    raising a [RequestException], gets, once its two lines are printed, the
    answer of a transport failure with the same message: a 500 whose error
    is [Request failed: ] followed by the message. *)
Theorem create_conversation_undecodable_body env request w r msg :
  provider env (outbound w) (create_request env) = Responds r ->
  stdout env (printed w) (response_line r) = None ->
  stdout env (printed w ++ [response_line r]) (key_line env) = None ->
  status_code r = 200%Z ->
  json r = JsonRaises (RequestException msg) ->
  (create_riddle_conversation env request w).1 =
    inl (HTTPException 500
           {| success := false; error := "Request failed: " ++ msg; details := None |}) /\
  active_conversations (create_riddle_conversation env request w).2 = active_conversations w.
Proof.
  intros Hp Hline Hkey Hs Hj.
  by rewrite (create_on_json_raising env request w r msg Hp (conj Hline Hkey) Hs Hj).
Qed.

Lemma create_conversation_undecodable_body_witness :
  (create_riddle_conversation html_env anonymous_create initial).1 =
    inl (HTTPException 500
           {| success := false;
              error := "Request failed: Expecting value: line 1 column 1 (char 0)";
              details := None |}) /\
  active_conversations (create_riddle_conversation html_env anonymous_create initial).2 = ∅.
Proof.
  exact (create_conversation_undecodable_body html_env anonymous_create initial
           (plain 200 "<html>ok</html>") "Expecting value: line 1 column 1 (char 0)"
           eq_refl eq_refl eq_refl eq_refl eq_refl).
Defined.

(** ** Create and end together *)

(** X11.  For a user id without a record: after a create request that the
    provider answered 200 with an object and whose two lines were printed,
    an end request for the user id the create ran under, whose two calls
    the provider answers, succeeds and leaves the dictionary as it was
    before the create. *)
Theorem create_then_end_restores env request w r fields r1 r2 :
  active_conversations w !! resolved_user_id env request w = None ->
  provider env (outbound w) (create_request env) = Responds r ->
  stdout env (printed w) (response_line r) = None ->
  stdout env (printed w ++ [response_line r]) (key_line env) = None ->
  status_code r = 200%Z ->
  json r = JsonObject fields ->
  provider env (outbound w ++ [create_request env])
    (end_request env (record_of env fields w)) = Responds r1 ->
  provider env ((outbound w ++ [create_request env]) ++ [end_request env (record_of env fields w)])
    (delete_request env (record_of env fields w)) = Responds r2 ->
  (end_conversation env (end_for (resolved_user_id env request w))
     (create_riddle_conversation env request w).2).1 = inr ended /\
  active_conversations
    (end_conversation env (end_for (resolved_user_id env request w))
       (create_riddle_conversation env request w).2).2 = active_conversations w.
Proof.
  intros Hfresh Hp Hline Hkey Hs Hj Hend Hdel.
  rewrite (end_after_create env request w r fields r1 r2 Hp (conj Hline Hkey) Hs Hj Hend Hdel).
  simpl. split; [reflexivity|]. by apply delete_id.
Qed.

Lemma create_then_end_restores_witness :
  (end_conversation healthy_env (end_for "alice")
     (create_riddle_conversation healthy_env alice_create initial).2).1 = inr ended /\
  active_conversations
    (end_conversation healthy_env (end_for "alice")
       (create_riddle_conversation healthy_env alice_create initial).2).2 = ∅.
Proof.
  exact (create_then_end_restores healthy_env alice_create initial (created "c1" "u1")
           {[ "conversation_id" := PyStr "c1"; "conversation_url" := PyStr "u1" ]}
           (plain 200 "") (plain 200 "")
           eq_refl eq_refl eq_refl eq_refl eq_refl eq_refl eq_refl eq_refl).
Defined.

(** X14.  The conversation an end request ends is the one the last create
    for that user id was given: when the provider answered the create with
    the string [cid] as conversation id in a 200 object answer whose two
    lines were printed, the end request that follows sends
    POST .../conversations/cid/end and then DELETE .../conversations/cid,
    also when the user id had a record of an earlier conversation, for
    which nothing is sent. *)
Theorem end_targets_created_conversation env request w r fields cid r1 r2 :
  provider env (outbound w) (create_request env) = Responds r ->
  stdout env (printed w) (response_line r) = None ->
  stdout env (printed w ++ [response_line r]) (key_line env) = None ->
  status_code r = 200%Z ->
  json r = JsonObject fields ->
  get fields "conversation_id" = PyStr cid ->
  provider env (outbound w ++ [create_request env])
    (end_request env (record_of env fields w)) = Responds r1 ->
  provider env ((outbound w ++ [create_request env]) ++ [end_request env (record_of env fields w)])
    (delete_request env (record_of env fields w)) = Responds r2 ->
  outbound
    (end_conversation env (end_for (resolved_user_id env request w))
       (create_riddle_conversation env request w).2).2 =
    (outbound w ++
     [create_request env;
      {| method := POST;
         url := "https://tavusapi.com/v2/conversations/" ++ cid ++ "/end";
         json_payload := None;
         headers := headers_of_env env |};
      {| method := DELETE;
         url := "https://tavusapi.com/v2/conversations/" ++ cid;
         json_payload := None;
         headers := headers_of_env env |}])%list.
Proof.
  intros Hp Hline Hkey Hs Hj Hcid Hend Hdel.
  rewrite (end_after_create env request w r fields r1 r2 Hp (conj Hline Hkey) Hs Hj Hend Hdel).
  simpl.
  unfold end_request, delete_request, record_of. simpl. rewrite Hcid. simpl.
  by rewrite <- app_assoc.
Qed.

Lemma end_targets_created_conversation_witness :
  outbound
    (end_conversation healthy_env (end_for "alice")
       (create_riddle_conversation healthy_env alice_create (with_alice healthy_env)).2).2 =
    (outbound (with_alice healthy_env) ++
     [create_request healthy_env;
      {| method := POST;
         url := "https://tavusapi.com/v2/conversations/c1/end";
         json_payload := None;
         headers := headers_of_env healthy_env |};
      {| method := DELETE;
         url := "https://tavusapi.com/v2/conversations/c1";
         json_payload := None;
         headers := headers_of_env healthy_env |}])%list.
Proof.
  exact (end_targets_created_conversation healthy_env alice_create (with_alice healthy_env)
           (created "c1" "u1")
           {[ "conversation_id" := PyStr "c1"; "conversation_url" := PyStr "u1" ]}
           "c1" (plain 200 "") (plain 200 "")
           eq_refl eq_refl eq_refl eq_refl eq_refl eq_refl eq_refl eq_refl).
Defined.

(** X15.  When the 200 answer to the create call has no conversation id
    (the key is absent or null) and its two lines were printed, the record
    holds [None], and the end
    request that follows sends its two calls to the conversation named
    [None]: POST .../conversations/None/end and DELETE
    .../conversations/None. *)
Theorem end_targets_none env request w r fields r1 r2 :
  provider env (outbound w) (create_request env) = Responds r ->
  stdout env (printed w) (response_line r) = None ->
  stdout env (printed w ++ [response_line r]) (key_line env) = None ->
  status_code r = 200%Z ->
  json r = JsonObject fields ->
  get fields "conversation_id" = PyNone ->
  provider env (outbound w ++ [create_request env])
    (end_request env (record_of env fields w)) = Responds r1 ->
  provider env ((outbound w ++ [create_request env]) ++ [end_request env (record_of env fields w)])
    (delete_request env (record_of env fields w)) = Responds r2 ->
  outbound
    (end_conversation env (end_for (resolved_user_id env request w))
       (create_riddle_conversation env request w).2).2 =
    (outbound w ++
     [create_request env;
      {| method := POST;
         url := "https://tavusapi.com/v2/conversations/None/end";
         json_payload := None;
         headers := headers_of_env env |};
      {| method := DELETE;
         url := "https://tavusapi.com/v2/conversations/None";
         json_payload := None;
         headers := headers_of_env env |}])%list.
Proof.
  intros Hp Hline Hkey Hs Hj Hcid Hend Hdel.
  rewrite (end_after_create env request w r fields r1 r2 Hp (conj Hline Hkey) Hs Hj Hend Hdel).
  simpl.
  unfold end_request, delete_request, record_of. simpl. rewrite Hcid. simpl.
  by rewrite <- app_assoc.
Qed.

Lemma end_targets_none_witness :
  outbound
    (end_conversation nameless_env (end_for "alice")
       (create_riddle_conversation nameless_env alice_create initial).2).2 =
    [create_request nameless_env;
     {| method := POST;
        url := "https://tavusapi.com/v2/conversations/None/end";
        json_payload := None;
        headers := headers_of_env nameless_env |};
     {| method := DELETE;
        url := "https://tavusapi.com/v2/conversations/None";
        json_payload := None;
        headers := headers_of_env nameless_env |}].
Proof.
  exact (end_targets_none nameless_env alice_create initial
           (answered {[ "conversation_url" := PyStr "u1" ]})
           {[ "conversation_url" := PyStr "u1" ]}
           (plain 200 "") (plain 200 "")
           eq_refl eq_refl eq_refl eq_refl eq_refl eq_refl eq_refl eq_refl).
Defined.

(** X20.  After a create request that the provider answered with a status
    other than 200, for a user id without a record, an end request for that
    user id is answered 404 and sends nothing. *)
Theorem end_after_failed_create env request w r :
  active_conversations w !! resolved_user_id env request w = None ->
  provider env (outbound w) (create_request env) = Responds r ->
  status_code r ≠ 200%Z ->
  end_conversation env (end_for (resolved_user_id env request w))
    (create_riddle_conversation env request w).2 =
    (inl (HTTPException 404
            {| success := false;
               error := "No active conversation found for user";
               details := None |}),
     (create_riddle_conversation env request w).2).
Proof.
  intros Hfresh Hp Hs.
  apply end_on_missing. simpl.
  rewrite create_state_otherwise; [exact Hfresh|].
  rewrite Hp. by left.
Qed.

Lemma end_after_failed_create_witness :
  end_conversation unavailable_env (end_for "alice")
    (create_riddle_conversation unavailable_env alice_create initial).2 =
    (inl (HTTPException 404
            {| success := false;
               error := "No active conversation found for user";
               details := None |}),
     (create_riddle_conversation unavailable_env alice_create initial).2).
Proof.
  refine (end_after_failed_create unavailable_env alice_create initial
            (plain 503 "unavailable") eq_refl eq_refl _).
  discriminate.
Defined.

(** ** The health count across requests *)

(** X12.  After a create request for a user id without a record that the
    provider answered 200 with an object and whose two lines were printed,
    the health check counts one record more than before. *)
Theorem health_after_create env request w r fields :
  active_conversations w !! resolved_user_id env request w = None ->
  provider env (outbound w) (create_request env) = Responds r ->
  stdout env (printed w) (response_line r) = None ->
  stdout env (printed w ++ [response_line r]) (key_line env) = None ->
  status_code r = 200%Z ->
  json r = JsonObject fields ->
  (health_check (create_riddle_conversation env request w).2).1 =
    inr {| Health.status := "healthy";
           Health.active_conversations := S (size (active_conversations w));
           Health.framework := "FastAPI" |}.
Proof.
  intros Hfresh Hp Hline Hkey Hs Hj.
  rewrite (create_state_on_object env request w r fields Hp (conj Hline Hkey) Hs Hj).
  unfold health_check. run. simpl.
  by rewrite map_size_insert_None.
Qed.

Lemma health_after_create_witness :
  (health_check (create_riddle_conversation healthy_env anonymous_create
                   (with_alice healthy_env)).2).1 =
    inr {| Health.status := "healthy";
           Health.active_conversations := 2;
           Health.framework := "FastAPI" |}.
Proof.
  exact (health_after_create healthy_env anonymous_create (with_alice healthy_env)
           (created "c1" "u1")
           {[ "conversation_id" := PyStr "c1"; "conversation_url" := PyStr "u1" ]}
           eq_refl eq_refl eq_refl eq_refl eq_refl eq_refl).
Defined.

(** X13.  After an end request for a user that has a record in a
    reachable state, both of whose calls the provider answered (with any
    status), the health check counts one record fewer than before. *)
Theorem health_after_end env w request c r1 r2 :
  reachable env w ->
  active_conversations w !! EndConversationRequest.user_id request = Some c ->
  provider env (outbound w) (end_request env c) = Responds r1 ->
  provider env (outbound w ++ [end_request env c]) (delete_request env c) = Responds r2 ->
  exists n,
    (health_check w).1 =
      inr {| Health.status := "healthy";
             Health.active_conversations := S n;
             Health.framework := "FastAPI" |} /\
    (health_check (end_conversation env request w).2).1 =
      inr {| Health.status := "healthy";
             Health.active_conversations := n;
             Health.framework := "FastAPI" |}.
Proof.
  intros Hreach Hsome Hend Hdel.
  pose proof (reachable_user_id_nonempty env w _ c Hreach Hsome) as Hne.
  rewrite (end_on_responses env request w c r1 r2 Hne Hsome Hend Hdel).
  unfold health_check. run. simpl.
  exists (pred (size (active_conversations w))).
  rewrite map_size_delete_Some by (rewrite Hsome; eauto).
  split; [|reflexivity].
  assert (size (active_conversations w) ≠ 0%nat)
    by (apply (map_size_ne_0_lookup_2 _ (EndConversationRequest.user_id request));
        rewrite Hsome; eauto).
  do 2 f_equal. lia.
Qed.

Lemma health_after_end_witness :
  exists n,
    (health_check (with_alice refusing_env)).1 =
      inr {| Health.status := "healthy";
             Health.active_conversations := S n;
             Health.framework := "FastAPI" |} /\
    (health_check (end_conversation refusing_env alice_end (with_alice refusing_env)).2).1 =
      inr {| Health.status := "healthy";
             Health.active_conversations := n;
             Health.framework := "FastAPI" |}.
Proof.
  exact (health_after_end refusing_env (with_alice refusing_env) alice_end c1_record
           (plain 500 "Internal Server Error") (plain 404 "Not Found")
           (with_alice_reachable refusing_env) eq_refl eq_refl eq_refl).
Defined.

(** ** Invariants of every run *)

(** X16.  In every reachable state no record is stored under the empty
    user id: a create request never runs under it, so the emptiness test of
    the end request never hides a record. *)
Theorem no_record_under_empty_user_id env w :
  reachable env w -> active_conversations w !! "" = None.
Proof. apply reachable_no_empty_key. Qed.

Lemma no_record_under_empty_user_id_witness :
  active_conversations (step healthy_env (CreateRiddleConversation empty_create) initial)
    !! "" = None.
Proof.
  apply (no_record_under_empty_user_id healthy_env).
  apply steps_step, steps_refl.
Defined.

(** X17.  In every reachable state the dictionary holds at most as many
    records as create calls were sent to the provider: a record only comes
    from a create call. *)
Theorem records_bounded_by_create_calls env w :
  reachable env w ->
  (size (active_conversations w) <= creations (outbound w))%nat.
Proof.
  unfold reachable. induction 1 as [|w' c _ IH].
  - simpl. rewrite map_size_empty. lia.
  - by apply step_creations.
Qed.

Lemma records_bounded_by_create_calls_witness :
  (size (active_conversations
           (step healthy_env (EndConversation alice_end) (with_alice healthy_env))) <=
   creations (outbound
                (step healthy_env (EndConversation alice_end) (with_alice healthy_env))))%nat.
Proof.
  apply (records_bounded_by_create_calls healthy_env).
  apply steps_step, with_alice_reachable.
Defined.

(** ** What a success answer tells *)

(** X21.  Whenever a create request answers with a response model, the
    response says success, names the user id the request ran under and has
    no error text, and the dictionary then holds a record under that user
    id with the conversation id of the response. *)
Theorem create_conversation_success_means_stored env request w resp w' :
  create_riddle_conversation env request w = (inr resp, w') ->
  ConversationResponse.success resp = true /\
  ConversationResponse.user_id resp = Some (resolved_user_id env request w) /\
  ConversationResponse.error resp = None /\
  ConversationResponse.details resp = None /\
  exists c,
    active_conversations w' !! resolved_user_id env request w = Some c /\
    optional_str (conversation_id c) = Some (ConversationResponse.conversation_id resp).
Proof.
  intros Hcreate.
  destruct (create_returns env request w resp w' Hcreate)
    as (r & fields & cid & curl & Hp & Hprint & Hs & Hj & Hid & Hurl).
  rewrite (create_on_object env request w r fields cid curl Hp Hprint Hs Hj Hid Hurl)
    in Hcreate.
  injection Hcreate as <- <-. simpl.
  repeat split; try reflexivity.
  eexists. split; [apply lookup_insert_eq|]. exact Hid.
Qed.

Lemma create_conversation_success_means_stored_witness :
  true = true /\
  Some "00000000-0000-0000-0000-000000000000" =
    Some (resolved_user_id healthy_env anonymous_create initial) /\
  @None string = None /\
  @None string = None /\
  exists c,
    active_conversations (create_riddle_conversation healthy_env anonymous_create initial).2
      !! resolved_user_id healthy_env anonymous_create initial = Some c /\
    optional_str (conversation_id c) = Some (Some "c1").
Proof.
  exact (create_conversation_success_means_stored healthy_env anonymous_create initial
           _ _ eq_refl).
Defined.

(** X22.  Whenever an end request answers with a response model, it is the
    success message, the user id had a record, the end call and the delete
    call for that record's conversation were both sent, in that order, and
    the record is gone. *)
Theorem end_conversation_success_means_removed env request w resp w' :
  end_conversation env request w = (inr resp, w') ->
  resp = ended /\
  exists c,
    active_conversations w !! EndConversationRequest.user_id request = Some c /\
    outbound w' = (outbound w ++ [end_request env c; delete_request env c])%list /\
    active_conversations w' =
      delete (EndConversationRequest.user_id request) (active_conversations w).
Proof.
  destruct (decide (EndConversationRequest.user_id request = "")) as [Hempty|Hne].
  { rewrite end_on_empty_user_id by done. discriminate. }
  destruct (active_conversations w !! EndConversationRequest.user_id request)
    as [c|] eqn:Hsome.
  2: { rewrite end_on_missing by done. discriminate. }
  destruct (provider env (outbound w) (end_request env c)) as [r1|e1] eqn:Hend.
  - destruct (provider env (outbound w ++ [end_request env c]) (delete_request env c))
      as [r2|e2] eqn:Hdel.
    + rewrite (end_on_responses env request w c r1 r2 Hne Hsome Hend Hdel).
      intros [= <- <-]. split; [reflexivity|]. exists c. by simpl.
    + unfold end_conversation. run. simpl.
      rewrite (end_guard_passes w _ c Hne Hsome), Hsome. simpl.
      fold (end_request env c). rewrite Hend. simpl.
      fold (delete_request env c). rewrite Hdel. simpl.
      destruct e2; discriminate.
  - unfold end_conversation. run. simpl.
    rewrite (end_guard_passes w _ c Hne Hsome), Hsome. simpl.
    fold (end_request env c). rewrite Hend. simpl.
    destruct e1; discriminate.
Qed.

Lemma end_conversation_success_means_removed_witness :
  ended = ended /\
  exists c,
    active_conversations (with_alice refusing_env) !! "alice" = Some c /\
    outbound (end_conversation refusing_env alice_end (with_alice refusing_env)).2 =
      (outbound (with_alice refusing_env) ++
       [end_request refusing_env c; delete_request refusing_env c])%list /\
    active_conversations (end_conversation refusing_env alice_end (with_alice refusing_env)).2 =
      delete "alice" (active_conversations (with_alice refusing_env)).
Proof.
  exact (end_conversation_success_means_removed refusing_env alice_end
           (with_alice refusing_env) _ _ eq_refl).
Defined.
